(** * Distgit reconciliation (oit/packages/image.py)

    A shallow embedding of [DistGitRepo] from [oit/packages/image.py]:
    the source merge with its pre-clean, manifest rename and drift
    detector ([_merge_source]), the modification interpreter
    ([_run_modifications]) and the metadata rewriter
    ([update_distgit_dir]).

    The program is Python 2: text is [str], a sequence of bytes, modelled
    by [string].  The checkout directory is a finite map from entry names
    to files and directories; exceptions are an error result that carries
    the state reached when the exception left the method.

    What the methods call but the file does not define is modelled at its
    interface: the helpers of [common] and the runtime from the spec, the
    operating-system calls by their POSIX behaviour on regular files and
    directories, [DockerfileParser] as an object with a label map and a
    base-image slot whose parsing and layout are parameters.  Logging
    ([runtime.verbose], [runtime.info]) has no effect on the state and is
    left out. *)

From stdpp Require Import gmap strings list fin_maps.
From Stdlib Require Import String Ascii.

Open Scope string_scope.
Set Warnings "-register-all".

(** ** Python [str] primitives *)

Module Py.

Definition LF : ascii := "010"%char.
Definition CR : ascii := "013"%char.

Definition is_break (c : ascii) : bool :=
  orb (Ascii.eqb c LF) (Ascii.eqb c CR).

(** [s.splitlines(False)]: lines are ended by "\n", "\r" or "\r\n";
    the terminators are dropped and no empty line is reported after a
    final terminator. *)
Fixpoint splitlines (s : string) : list string :=
  match s with
  | EmptyString => []
  | String c s' =>
      if Ascii.eqb c LF then EmptyString :: splitlines s'
      else if Ascii.eqb c CR then
        match s' with
        | String c' s'' =>
            if Ascii.eqb c' LF then EmptyString :: splitlines s''
            else EmptyString :: splitlines s'
        | EmptyString => EmptyString :: splitlines s'
        end
      else
        match splitlines s' with
        | [] => [String c EmptyString]
        | l :: ls => String c l :: ls
        end
  end.

(** ["\n".join(lines)] *)
Definition join_lines (lines : list string) : string :=
  String.concat (String LF EmptyString) lines.

(** [string.whitespace] of Python 2: tab, LF, VT, FF, CR and space. *)
Definition is_space (c : ascii) : bool :=
  match nat_of_ascii c with
  | 9 | 10 | 11 | 12 | 13 | 32 => true
  | _ => false
  end.

Fixpoint lstrip (s : string) : string :=
  match s with
  | EmptyString => EmptyString
  | String c s' => if is_space c then lstrip s' else s
  end.

(** [rstrip] keeps a character when it is not whitespace or when
    something remains after it once the rest is stripped. *)
Fixpoint rstrip (s : string) : string :=
  match s with
  | EmptyString => EmptyString
  | String c s' =>
      match rstrip s' with
      | EmptyString => if is_space c then EmptyString else String c EmptyString
      | r => String c r
      end
  end.

(** [s.strip()] *)
Definition strip (s : string) : string := rstrip (lstrip s).

(** [s.startswith(p)] *)
Definition startswith (s p : string) : bool := String.prefix p s.

(** [s.endswith(p)] *)
Fixpoint endswith (s p : string) : bool :=
  orb (String.eqb s p)
      (match s with EmptyString => false | String _ s' => endswith s' p end).

(** [s.replace("", new)]: [new] before every character and at the end. *)
Fixpoint replace_empty (new s : string) : string :=
  match s with
  | EmptyString => new
  | String c s' => new +:+ String c (replace_empty new s')
  end.

(** Scan for a non-empty [old], left to right, occurrences not
    overlapping: [skip] counts the characters of a matched occurrence that
    are still to be passed over. *)
Fixpoint replace_scan (skip : nat) (old new s : string) : string :=
  match s with
  | EmptyString => EmptyString
  | String c s' =>
      match skip with
      | S k => replace_scan k old new s'
      | O =>
          if String.prefix old s
          then new +:+ replace_scan (String.length old - 1) old new s'
          else String c (replace_scan 0 old new s')
      end
  end.

(** [s.replace(old, new)] *)
Definition replace (s old new : string) : string :=
  match old with
  | EmptyString => replace_empty new s
  | _ => replace_scan 0 old new s
  end.

(** [sep.join(items)] *)
Definition join (sep : string) (items : list string) : string :=
  String.concat sep items.

(** [old in s] for a non-empty [old]. *)
Fixpoint occurs (old s : string) : bool :=
  match s with
  | EmptyString => false
  | String _ s' => orb (String.prefix old s) (occurs old s')
  end.

End Py.

(** ** The checkout as a tree of files and directories *)

Inductive node :=
| File (data : string)
| Dir (entries : gmap string node).

(** A relative path, one name per component: [".oit/Dockerfile.git.last"]
    is [[".oit"; "Dockerfile.git.last"]].  Entry names are atoms. *)
Definition path := list string.

Fixpoint walk (p : path) (nd : node) : option node :=
  match p with
  | [] => Some nd
  | n :: p' =>
      match nd with
      | Dir d => match d !! n with Some child => walk p' child | None => None end
      | File _ => None
      end
  end.

(** Store ([Some]) or unlink ([None]) the entry at [p]; [None] when the
    parent of [p] is not an existing directory. *)
Fixpoint put_at (p : path) (v : option node) (nd : node) : option node :=
  match p, nd with
  | [], _ => None
  | _ :: _, File _ => None
  | [n], Dir d =>
      Some (Dir (match v with Some x => <[n := x]> d | None => delete n d end))
  | n :: p', Dir d =>
      match d !! n with
      | Some child =>
          match put_at p' v child with
          | Some child' => Some (Dir (<[n := child']> d))
          | None => None
          end
      | None => None
      end
  end.

Definition basename (p : path) : path :=
  match last p with Some n => [n] | None => [] end.

(** [os.path.join(a, b)] of posixpath, two arguments. *)
Definition posix_join (a b : string) : string :=
  if Py.startswith b "/" then b
  else if orb (String.eqb a "") (Py.endswith a "/") then a +:+ b
  else a +:+ "/" +:+ b.

(** Modelled from the spec: [recursive_overwrite] of the repository's
    [common] module, which is not part of the sources at hand.  The spec
    has it "merge directory A's contents into directory B, overwriting
    conflicts": "recursively merge the source root's contents into the
    checkout, overwriting any path that collides; files present only in the
    checkout survive".  [overwrite src dst] is what stands at a destination
    after [src] was copied over what was there. *)
Fixpoint overwrite (src : node) (dst : option node) {struct src} : node :=
  match src with
  | File data => File data
  | Dir es =>
      let base := match dst with Some (Dir ds) => ds | _ => ∅ end in
      Dir (merge (fun s d =>
                    match s with
                    | Some s' => Some (overwrite s' d)
                    | None => d
                    end) es base)
  end.

Definition merge_dir (src dst : gmap string node) : gmap string node :=
  merge (fun s d =>
           match s with
           | Some s' => Some (overwrite s' d)
           | None => d
           end) src dst.

(** ** Configuration ([Model] with its [Missing] sentinel) *)

(** An absent field is [None]. *)
Record modification := Modification {
  action : option string;
  match_ : option string;
  replacement : option string
}.

Record source_config := SourceConfig {
  alias : option string;
  source_sub_path : option string;
  dockerfile : option string;
  modifications : option (list modification)
}.

(** [config["from"]]; an absent [from] section has the three fields absent. *)
Record from_config := FromConfig {
  member : option string;
  image : option string;
  stream : option string
}.

Record config := Config {
  name : string;
  labels : option (gmap string string);
  owners : option (list string);
  content_source : option source_config;
  from : from_config
}.

(** [ImageMetadata] together with the checkout path of its [DistGitRepo]. *)
Record metadata := Metadata {
  md_name : string;
  md_dir : string;
  md_config : config;
  distgit_dir : string
}.

(** The runtime context.  [resolve_image m] is
    [runtime.resolve_image(m).config.name] and [resolve_stream s] is
    [runtime.resolve_stream(s).image]; the caller guarantees both resolve
    (spec, section 5).  [host_dirs] gives the directories outside the
    checkout, by absolute path; they are only read. *)
Record runtime := Runtime {
  source_alias : gmap string string;
  host_dirs : string -> option (gmap string node);
  resolve_image : string -> string;
  resolve_stream : string -> string
}.

(** ** State, exceptions and the method monad *)

Record record := Record_ {
  record_type : string;
  record_fields : list (string * string)
}.

Record state := State {
  cwd : gmap string node;        (* the checkout, entered by [Dir(distgit_dir)] *)
  records : list record;         (* what [runtime.add_record] has appended *)
  oit_comments : list string     (* [self.oit_comments] *)
}.

Inductive io_error :=
| NoSourceAlias                         (* "Can't find source alias in image config" *)
| AliasNotRegistered (a : string)       (* "Required source alias has not been registered" *)
| ReplaceNoChange (m r : string)        (* "Replace (m->r) modification did not make a change" *)
| UnknownAction (a : option string)     (* "Don't know how to perform modification action" *)
| CannotOpen (p : path).                (* raised by [open] and [shutil.copy] *)

Inductive exn :=
| AssertionError
| IOError (why : io_error)
| OSError (p : path)
| AssertFileFailed (p : path)           (* [common.assert_file] *)
| AssertDirFailed (p : string).         (* [common.assert_dir] *)

Inductive outcome (A : Type) :=
| Ok (a : A) (st : state)
| Raise (e : exn) (st : state).
Arguments Ok {A} a st.
Arguments Raise {A} e st.

Definition M (A : Type) : Type := state -> outcome A.

Definition ret {A} (a : A) : M A := fun st => Ok a st.

Definition bind {A B} (m : M A) (k : A -> M B) : M B :=
  fun st =>
    match m st with
    | Ok a st' => k a st'
    | Raise e st' => Raise e st'
    end.

Definition raise {A} (e : exn) : M A := fun st => Raise e st.

Declare Scope py_scope.
Delimit Scope py_scope with py.
Notation "x <- m ;; k" := (bind m (fun x => k))
  (at level 100, m at next level, right associativity) : py_scope.
Notation "m ;;; k" := (bind m (fun _ => k))
  (at level 100, right associativity) : py_scope.
Open Scope py_scope.

Fixpoint for_each {A} (items : list A) (body : A -> M unit) : M unit :=
  match items with
  | [] => ret tt
  | x :: rest => body x ;;; for_each rest body
  end.

Definition when (b : bool) (m : M unit) : M unit := if b then m else ret tt.

Definition set_cwd (d : gmap string node) (st : state) : state :=
  State d (records st) (oit_comments st).

(** ** File operations on the checkout *)

Definition lookup_path (p : path) (st : state) : option node :=
  walk p (Dir (cwd st)).

(** [os.path.isfile(p)] *)
Definition isfile (p : path) : M bool :=
  fun st => Ok (match lookup_path p st with Some (File _) => true | _ => false end) st.

(** [os.path.isdir(p)] *)
Definition isdir (p : path) : M bool :=
  fun st => Ok (match lookup_path p st with Some (Dir _) => true | _ => false end) st.

(** [os.listdir(".")]: the names of the checkout's entries, as a list. *)
Definition listdir : M (list string) :=
  fun st => Ok (map_to_list (cwd st)).*1 st.

Definition store (p : path) (v : option node) (e : exn) : M unit :=
  fun st =>
    match put_at p v (Dir (cwd st)) with
    | Some (Dir d) => Ok tt (set_cwd d st)
    | _ => Raise e st
    end.

(** [os.remove(p)]: unlinks a file, fails on a directory or a missing entry. *)
Definition os_remove (p : path) : M unit :=
  fun st =>
    match lookup_path p st with
    | Some (File _) => store p None (OSError p) st
    | _ => Raise (OSError p) st
    end.

(** [shutil.rmtree(p)]: removes a directory with all it holds. *)
Definition shutil_rmtree (p : path) : M unit :=
  fun st =>
    match lookup_path p st with
    | Some (Dir _) => store p None (OSError p) st
    | _ => Raise (OSError p) st
    end.

(** [os.mkdir(p)] *)
Definition os_mkdir (p : path) : M unit :=
  fun st =>
    match lookup_path p st with
    | Some _ => Raise (OSError p) st
    | None => store p (Some (Dir ∅)) (OSError p) st
    end.

(** [os.rename(src, dst)] on POSIX: a file replaces a file, a directory
    replaces an empty directory, renaming an entry to itself does nothing;
    the entry moves in one step or not at all. *)
Definition os_rename (src dst : path) : M unit :=
  fun st =>
    match lookup_path src st with
    | None => Raise (OSError src) st
    | Some s =>
        if bool_decide (src = dst) then Ok tt st
        else
          let replaceable :=
            match s, lookup_path dst st with
            | _, None => true
            | File _, Some (File _) => true
            | Dir _, Some (Dir es) => bool_decide (es = ∅)
            | _, _ => false
            end in
          if replaceable then
            match put_at src None (Dir (cwd st)) with
            | Some moved =>
                match put_at dst (Some s) moved with
                | Some (Dir d) => Ok tt (set_cwd d st)
                | _ => Raise (OSError dst) st
                end
            | None => Raise (OSError src) st
            end
          else Raise (OSError dst) st
    end.

(** [open(p, 'r').read()] *)
Definition read_file (p : path) : M string :=
  fun st =>
    match lookup_path p st with
    | Some (File data) => Ok data st
    | _ => Raise (IOError (CannotOpen p)) st
    end.

(** [open(p, 'w')] followed by the writes that make up [data]. *)
Definition write_file (p : path) (data : string) : M unit :=
  fun st =>
    match lookup_path p st with
    | Some (Dir _) => Raise (IOError (CannotOpen p)) st
    | _ => store p (Some (File data)) (IOError (CannotOpen p)) st
    end.

(** [filecmp.cmp(a, b, False)]: [os.stat] fails on a missing entry; entries
    that are not both regular files compare unequal; otherwise the contents
    are compared. *)
Definition filecmp_cmp (a b : path) : M bool :=
  fun st =>
    match lookup_path a st, lookup_path b st with
    | None, _ => Raise (OSError a) st
    | _, None => Raise (OSError b) st
    | Some (File x), Some (File y) => Ok (String.eqb x y) st
    | Some _, Some _ => Ok false st
    end.

(** [shutil.copy(src, dst)]: into [dst] when it is a directory, else onto it. *)
Definition shutil_copy (src dst : path) : M unit :=
  fun st =>
    match lookup_path src st with
    | Some (File data) =>
        match lookup_path dst st with
        | Some (Dir _) => write_file (dst ++ basename src)%list data st
        | _ => write_file dst data st
        end
    | _ => Raise (IOError (CannotOpen src)) st
    end.

(** Modelled from the spec: [assert_file] of the repository's [common]
    module, absent from the sources at hand.  "A build-file must exist in
    the checkout root by this point [...]; fails with MissingManifestError
    otherwise". *)
Definition assert_file (p : path) : M unit :=
  b <- isfile p ;; if b then ret tt else raise (AssertFileFailed p).

(** [runtime.add_record(kind, **fields)] *)
Definition add_record (kind : string) (fields : list (string * string)) : M unit :=
  fun st => Ok tt (State (cwd st) (records st ++ [Record_ kind fields])%list (oit_comments st)).

(** [self.oit_comments = lines] and [self.oit_comments.extend(lines)] *)
Definition set_oit_comments (lines : list string) : M unit :=
  fun st => Ok tt (State (cwd st) (records st) lines).

Definition extend_oit_comments (lines : list string) : M unit :=
  fun st => Ok tt (State (cwd st) (records st) (oit_comments st ++ lines)%list).

Definition get_oit_comments : M (list string) :=
  fun st => Ok (oit_comments st) st.

Definition lift {A} (r : exn + A) : M A :=
  match r with inl e => raise e | inr a => ret a end.

(** ** The manifest accessor ([dockerfile_parse.DockerfileParser]) *)

(** Modelled from the spec: the accessor is an external library, known by
    its interface only (spec, section 6): "parse(path) -> {labels:
    orderedMap<string,string>, baseImage: string}; labels mutation and
    baseImage assignment are reflected back into content on request".  The
    object holds the label map and the base-image slot next to the text it
    was read from; how the library parses and how it lays out [content] is
    left open ([accessor]).  The library writes every assignment through
    to the file; nothing can fail between the first assignment and the
    rewrite of the whole build-file at the end of [update_distgit_dir], so
    these writes are not observable and not modelled. *)
Record DockerfileParser := Dfp {
  dfp_labels : gmap string string;
  dfp_baseimage : option string;
  dfp_original : string
}.

Record accessor := Accessor {
  parse_labels : string -> gmap string string;
  parse_baseimage : string -> option string;
  render : DockerfileParser -> string
}.

(** [dfp.labels[k] = v] *)
Definition set_label (k v : string) (dfp : DockerfileParser) : DockerfileParser :=
  Dfp (<[k := v]> (dfp_labels dfp)) (dfp_baseimage dfp) (dfp_original dfp).

(** [dfp.baseimage = img] *)
Definition set_baseimage (img : string) (dfp : DockerfileParser) : DockerfileParser :=
  Dfp (dfp_labels dfp) (Some img) (dfp_original dfp).

(** ** [DistGitRepo] *)

Definition OIT_COMMENT_PREFIX : string := "#oit## ".

Definition dockerfile_git_last_path : path := [".oit"; "Dockerfile.git.last"].

Definition NL : string := String Py.LF EmptyString.

Section DistGitRepo.

Variable rt : runtime.
Variable md : metadata.
Variable acc : accessor.

Let cfg : config := md_config md.

(** Modelled from the spec: [assert_dir] of [common]; "fails with
    MissingPathError if the resolved source path (root + optional sub-path)
    does not exist as a directory". *)
Definition assert_dir (p : string) : M unit :=
  match host_dirs rt p with
  | Some _ => ret tt
  | None => raise (AssertDirFailed p)
  end.

Definition source_path : M string :=
  match content_source cfg ≫= alias with
  | None => raise (IOError NoSourceAlias)
  | Some a =>
      match source_alias rt !! a with
      | None => raise (IOError (AliasNotRegistered a))
      | Some source_root =>
          let p :=
            match content_source cfg ≫= source_sub_path with
            | Some sub_path => posix_join source_root sub_path
            | None => source_root
            end in
          assert_dir p ;;; ret p
      end
  end.

(** [recursive_overwrite(src, self.distgit_dir)], see [overwrite]. *)
Definition recursive_overwrite (src : string) : M unit :=
  fun st =>
    match host_dirs rt src with
    | Some d => Ok tt (set_cwd (merge_dir d (cwd st)) st)
    | None => Raise (OSError [src]) st
    end.

(** Lines 122-138: clean up what is not special to the distgit repo. *)
Definition pre_clean_entry (ent : string) : M unit :=
  if Py.startswith ent "." then ret tt
  else if bool_decide (ent ∈ ["additional-tags"]) then ret tt
  else (b <- isfile [ent] ;;
        if b then os_remove [ent] else shutil_rmtree [ent]).

Definition pre_clean : M unit :=
  ents <- listdir ;; for_each ents pre_clean_entry.

(** Lines 143-153: a build-file under another name. *)
Definition rename_dockerfile : M unit :=
  match content_source cfg ≫= dockerfile with
  | Some dockerfile_name =>
      if negb (String.eqb dockerfile_name "Dockerfile") then
        (b <- isfile ["Dockerfile"] ;;
         when b (os_remove ["Dockerfile"]) ;;;
         os_rename [dockerfile_name] ["Dockerilfe"])
      else ret tt
  | None => ret tt
  end.

(** Lines 155-158: extraneous [Dockerfile.*]. *)
Definition remove_dockerfile_variants : M unit :=
  ents <- listdir ;;
  for_each ents (fun ent =>
    when (Py.startswith ent "Dockerfile.") (os_remove [ent])).

(** Lines 160-175: has the build-file changed since the last
    reconciliation?  The result is [notify_owner]. *)
Definition detect_drift : M bool :=
  has_last <- isfile dockerfile_git_last_path ;;
  if has_last then
    (same <- filecmp_cmp dockerfile_git_last_path ["Dockerfile"] ;;
     if negb same then
       (os_remove dockerfile_git_last_path ;;;
        shutil_copy ["Dockerfile"] dockerfile_git_last_path ;;;
        ret true)
     else ret false)
  else ret true.

(** Lines 177-180: leave a record for the owners. *)
Definition record_notification (notify_owner : bool) : M unit :=
  match owners cfg with
  | Some owners_ =>
      when notify_owner
        (add_record "dockerfile_notify"
           [("distgit", md_name md);
            ("dockerfile", posix_join (distgit_dir md) "Dockerfile");
            ("owners", Py.join ", " owners_)])
  | None => ret tt
  end.

Definition merge_comments : list string :=
  ["The content of this file is managed from external source.";
   "Changes made directly in distgit will be lost during the next";
   "reconciliation process.";
   ""].

Definition _merge_source : M unit :=
  pre_clean ;;;
  src <- source_path ;;
  recursive_overwrite src ;;;
  rename_dockerfile ;;;
  remove_dockerfile_variants ;;;
  notify_owner <- detect_drift ;;
  record_notification notify_owner ;;;
  extend_oit_comments merge_comments.

(** One step of the loop of [_run_modifications], on the local
    [dockerfile_data]. *)
Definition apply_modification (m : modification) (dockerfile_data : string)
  : exn + string :=
  if bool_decide (action m = Some "replace") then
    match match_ m with
    | None => inl AssertionError
    | Some match' =>
        match replacement m with
        | None => inl AssertionError
        | Some replacement' =>
            let pre := dockerfile_data in
            let dockerfile_data := Py.replace pre match' replacement' in
            if String.eqb dockerfile_data pre
            then inl (IOError (ReplaceNoChange match' replacement'))
            else inr dockerfile_data
        end
    end
  else inl (IOError (UnknownAction (action m))).

Fixpoint apply_modifications (ms : list modification) (dockerfile_data : string)
  : exn + string :=
  match ms with
  | [] => inr dockerfile_data
  | m :: rest =>
      match apply_modification m dockerfile_data with
      | inl e => inl e
      | inr dockerfile_data' => apply_modifications rest dockerfile_data'
      end
  end.

Definition _run_modifications (ms : list modification) : M unit :=
  dockerfile_data <- read_file ["Dockerfile"] ;;
  dockerfile_data' <- lift (apply_modifications ms dockerfile_data) ;;
  write_file ["Dockerfile"] dockerfile_data'.

Definition base_comments : list string :=
  ["This file is managed by the OpenShift Image tool: github.com/openshift/enterprise-images";
   "by the OpenShift Continuous Delivery team (#aos-cd-team on IRC).";
   ""].

Definition unmanaged_comments : list string :=
  ["Some aspects of this file may be managed programmatically. For example, the image name, labels (version,";
   "release, and other), and the base FROM. Changes made directly in distgit may be lost during the next";
   "reconciliation.";
   ""].

(** Lines 249-288: labels and base image. *)
Definition set_config_labels (dfp : DockerfileParser) : DockerfileParser :=
  match labels cfg with
  | Some ls => foldl (fun d kv => set_label kv.1 kv.2 d) dfp (map_to_list ls)
  | None => dfp
  end.

Definition set_from (version release : string) (dfp : DockerfileParser)
  : DockerfileParser :=
  let dfp :=
    match member (from cfg) with
    | Some m => set_baseimage (resolve_image rt m +:+ ":" +:+ version +:+ "-" +:+ release) dfp
    | None => dfp
    end in
  let dfp :=
    match image (from cfg) with
    | Some i => set_baseimage i dfp
    | None => dfp
    end in
  match stream (from cfg) with
  | Some s => set_baseimage (resolve_stream rt s) dfp
  | None => dfp
  end.

Definition rewrite_metadata (version release : string) (dfp : DockerfileParser)
  : DockerfileParser :=
  let dfp := set_config_labels dfp in
  let dfp := set_label "name" (name cfg) dfp in
  let dfp := set_label "com.redhat.component" (md_name md) dfp in
  let dfp := set_from version release dfp in
  let dfp := set_label "name" (name cfg) dfp in
  let dfp := set_label "version" version dfp in
  set_label "release" release dfp.

(** Lines 290-294: remove the oit comments of a previous run. *)
Definition is_oit_comment (line : string) : bool :=
  Py.startswith (Py.strip line) OIT_COMMENT_PREFIX.

Definition strip_oit_comments (content : string) : string :=
  let df_lines := Py.splitlines content in
  let df_lines := List.filter (fun line => negb (is_oit_comment line)) df_lines in
  Py.join_lines df_lines.

(** Lines 296-299: what is written to the build-file. *)
Definition with_oit_comments (comments : list string) (df_content : string) : string :=
  foldr (fun comment rest => OIT_COMMENT_PREFIX +:+ comment +:+ NL +:+ rest)
        df_content comments.

Definition open_dockerfile : M DockerfileParser :=
  text <- read_file ["Dockerfile"] ;;
  ret (Dfp (parse_labels acc text) (parse_baseimage acc text) text).

Definition update_distgit_dir (version release : string) : M unit :=
  set_oit_comments base_comments ;;;
  has_oit <- isdir [".oit"] ;;
  when (negb has_oit) (os_mkdir [".oit"]) ;;;
  (match content_source cfg with
   | Some _ => _merge_source
   | None => extend_oit_comments unmanaged_comments
   end) ;;;
  assert_file ["Dockerfile"] ;;;
  (match content_source cfg ≫= modifications with
   | Some ms => _run_modifications ms
   | None => ret tt
   end) ;;;
  dfp <- open_dockerfile ;;
  let dfp := rewrite_metadata version release dfp in
  let df_content := strip_oit_comments (render acc dfp) in
  comments <- get_oit_comments ;;
  write_file ["Dockerfile"] (with_oit_comments comments df_content).

End DistGitRepo.

(** ** Vocabulary of the statements *)

(** A line as [splitlines] reports it holds no line terminator. *)
Fixpoint no_break (s : string) : bool :=
  match s with
  | EmptyString => true
  | String c s' => negb (Py.is_break c) && no_break s'
  end.

Fixpoint no_cr (s : string) : bool :=
  match s with
  | EmptyString => true
  | String c s' => negb (Ascii.eqb c Py.CR) && no_cr s'
  end.

(** [s] without its final "\n", if it ends with one. *)
Fixpoint chomp (s : string) : string :=
  match s with
  | EmptyString => EmptyString
  | String c s' =>
      match s' with
      | EmptyString => if Ascii.eqb c Py.LF then EmptyString else s
      | _ => String c (chomp s')
      end
  end.

(** The header line written for the empty comment: the marker alone. *)
Definition blank_oit_line : string := OIT_COMMENT_PREFIX.

Definition count_blank (lines : list string) : nat :=
  List.length (List.filter (String.eqb blank_oit_line) lines).

(** The header as one text: every comment marker-prefixed and ended by "\n". *)
Definition oit_header (comments : list string) : string :=
  String.concat "" (map (fun comment => OIT_COMMENT_PREFIX +:+ comment +:+ NL) comments).

(** The strip-then-prepend step of [update_distgit_dir], lines 290-299. *)
Definition rewrite_header (comments : list string) (content : string) : string :=
  with_oit_comments comments (strip_oit_comments content).

(** An entry the pre-clean loop passes over. *)
Definition protected (ent : string) : bool :=
  Py.startswith ent "." || bool_decide (ent ∈ ["additional-tags"]).

(** The drift snapshot of a checkout, the entry at
    [dockerfile_git_last_path]. *)
Definition snapshot (d : gmap string node) : option node :=
  match d !! ".oit" with
  | Some (Dir o) => o !! "Dockerfile.git.last"
  | _ => None
  end.

(** The checkout with [data] stored as the drift snapshot. *)
Definition with_snapshot (data : string) (d : gmap string node) : gmap string node :=
  match d !! ".oit" with
  | Some (Dir o) => <[".oit" := Dir (<["Dockerfile.git.last" := File data]> o)]> d
  | _ => d
  end.

(** The checkout once the metadata directory is made sure of. *)
Definition ensure_oit (d : gmap string node) : gmap string node :=
  match d !! ".oit" with
  | None => <[".oit" := Dir ∅]> d
  | Some _ => d
  end.

(** The checkout as the drift detector leaves it when the merged
    build-file holds [text]. *)
Definition drifted (text : string) (d : gmap string node) : gmap string node :=
  match snapshot d with
  | Some (File old) => if String.eqb old text then d else with_snapshot text d
  | _ => d
  end.

(** The detector's answer in that checkout. *)
Definition drift (text : string) (d : gmap string node) : bool :=
  match snapshot d with
  | Some (File old) => negb (String.eqb old text)
  | _ => true
  end.

(** The records an answer [notify_owner] adds. *)
Definition notification (md : metadata) (notify_owner : bool) : list record :=
  match owners (md_config md) with
  | Some owners_ =>
      if notify_owner
      then [Record_ "dockerfile_notify"
              [("distgit", md_name md);
               ("dockerfile", posix_join (distgit_dir md) "Dockerfile");
               ("owners", Py.join ", " owners_)]]
      else []
  | None => []
  end.

(** An alternate build-file, [Dockerfile.centos] and the like. *)
Definition is_variant (ent : string) : bool := Py.startswith ent "Dockerfile.".

(** The directory [source_path] answers with for a registered alias. *)
Definition resolved_source (rt : runtime) (sc : source_config) : option string :=
  a ← alias sc;
  source_root ← source_alias rt !! a;
  Some (match source_sub_path sc with
        | Some sub_path => posix_join source_root sub_path
        | None => source_root
        end).

(** The rules of [content.source.modifications], none when it is absent. *)
Definition configured_rules (sc : source_config) : list modification :=
  default [] (modifications sc).

(** The labels that [update_distgit_dir] computes itself. *)
Definition computed_labels : list string :=
  ["name"; "com.redhat.component"; "version"; "release"].

(** What the accessor holds after reading [text] from the build-file. *)
Definition parsed (acc : accessor) (text : string) : DockerfileParser :=
  Dfp (parse_labels acc text) (parse_baseimage acc text) text.

(** The accessor's content after lines 249-288 on a build-file [text]. *)
Definition rewritten (rt : runtime) (md : metadata) (acc : accessor)
    (version release text : string) : string :=
  render acc (rewrite_metadata rt md version release (parsed acc text)).

(** The build-file written for a build-file [text] found after the merge
    and the modifications, under the comment block [comments]. *)
Definition final_text (rt : runtime) (md : metadata) (acc : accessor)
    (version release : string) (comments : list string) (text : string) : string :=
  rewrite_header comments (rewritten rt md acc version release text).

(** ** A toy accessor and scenarios *)

(** A toy accessor, for running the engine on examples: one instruction
    per line, labels as lines [LABEL key=value] and the base image as the
    line [FROM image]; comments and other lines are kept as they are, in
    place, labels are written after them.  No property below depends on
    it; it shows that what is assumed of an accessor can be had. *)
Fixpoint skip (n : nat) (s : string) : string :=
  match n, s with
  | S n', String _ s' => skip n' s'
  | _, _ => s
  end.

Fixpoint split_eq (s : string) : option (string * string) :=
  match s with
  | EmptyString => None
  | String c s' =>
      if Ascii.eqb c "="%char then Some (EmptyString, s')
      else match split_eq s' with
           | Some (k, v) => Some (String c k, v)
           | None => None
           end
  end.

Definition toy_parse_labels (text : string) : gmap string string :=
  foldl (fun m line =>
           if Py.startswith line "LABEL " then
             match split_eq (skip 6 line) with
             | Some (k, v) => <[k := v]> m
             | None => m
             end
           else m) ∅ (Py.splitlines text).

Definition toy_parse_baseimage (text : string) : option string :=
  match List.filter (fun line => Py.startswith line "FROM ") (Py.splitlines text) with
  | line :: _ => Some (skip 5 line)
  | [] => None
  end.

Definition toy_render (dfp : DockerfileParser) : string :=
  let lines := Py.splitlines (dfp_original dfp) in
  let lines := List.filter (fun line => negb (Py.startswith line "LABEL ")) lines in
  let lines :=
    map (fun line =>
           if Py.startswith line "FROM " then
             match dfp_baseimage dfp with
             | Some img => "FROM " +:+ img
             | None => line
             end
           else line) lines in
  let label_lines :=
    map (fun kv => "LABEL " +:+ kv.1 +:+ "=" +:+ kv.2) (map_to_list (dfp_labels dfp)) in
  Py.join_lines (lines ++ label_lines)%list +:+ NL.

Definition toy_accessor : accessor :=
  Accessor toy_parse_labels toy_parse_baseimage toy_render.

(** The checkout of the example: [.oit/], [.gitignore], [additional-tags]
    and [old.txt]. *)
Definition example_checkout : gmap string node :=
  <[".oit" := Dir ∅]>
    (<[".gitignore" := File "*.pyc"]>
       (<["additional-tags" := File "latest"]>
          (<["old.txt" := File "stale"]> ∅))).

(** Three checkouts for the drift detector: without a snapshot, with a
    stale one, with a current one. *)
Definition drift_checkout (last : option string) : gmap string node :=
  <["Dockerfile" := File "FROM base:2"]>
    (<[".oit" := Dir (match last with
                      | Some data => <["Dockerfile.git.last" := File data]> ∅
                      | None => ∅
                      end)]> ∅).

(** Rules of which the second has no effect on what the first leaves. *)
Definition stale_rules : list modification :=
  [Modification (Some "replace") (Some "centos") (Some "rhel");
   Modification (Some "replace") (Some "centos:7") (Some "rhel:7")].

Definition modified_checkout : gmap string node :=
  <["Dockerfile" := File "FROM centos:7"]> (<[".oit" := Dir ∅]> ∅).

(** An upstream source tree with a build-file per platform, registered
    under the alias [A] at [/src], and an image built from
    [Dockerfile.rhel7]. *)
Definition upstream : gmap string node :=
  <["Dockerfile" := File "FROM centos:7"]>
    (<["Dockerfile.rhel7" := File "FROM rhel7:latest"]>
       (<["main.go" := File "package main"]> ∅)).

Definition example_runtime : runtime :=
  Runtime {["A" := "/src"]}
          (fun p => if String.eqb p "/src" then Some upstream else None)
          (fun m => "openshift/" +:+ m)
          (fun s => "registry/" +:+ s +:+ ":latest").

Definition rhel7_config : config :=
  Config "openshift/foo" None None
         (Some (SourceConfig (Some "A") None (Some "Dockerfile.rhel7") None))
         (FromConfig None None None).

Definition rhel7_metadata : metadata :=
  Metadata "foo" "/images/foo" rhel7_config "/distgits/foo".

(** An image that names both a sibling and a literal base image. *)
Definition both_from_config : config :=
  Config "openshift/foo" (Some {["release-type" := "stable"; "name" := "stale"]}) None None
         (FromConfig (Some "base") (Some "rhel7:7.4") None).

Definition both_from_metadata : metadata :=
  Metadata "foo" "/images/foo" both_from_config "/distgits/foo".

(** What the accessor holds after it has read a build-file that was built
    from another base and carries labels of its own. *)
Definition parsed_dockerfile : DockerfileParser :=
  Dfp {["name" := "upstream/foo"; "vendor" := "ACME"]} (Some "centos:7")
      "FROM centos:7".

(** An image without upstream source, and a checkout of it that was
    never reconciled. *)
Definition plain_config : config :=
  Config "openshift/foo" None (Some ["alice"; "bob"]) None (FromConfig None None None).

Definition plain_metadata : metadata :=
  Metadata "foo" "/images/foo" plain_config "/distgits/foo".

Definition plain_checkout : gmap string node :=
  <["Dockerfile" := File ("FROM base" +:+ NL)]> ∅.

(** An upstream tree with the build-file under its default name and an
    alternate one, registered under the alias [A] at [/src]. *)
Definition plain_upstream : gmap string node :=
  <["Dockerfile" := File ("FROM centos:7" +:+ NL)]>
    (<["Dockerfile.centos" := File "FROM centos:6"]>
       (<["main.go" := File "package main"]> ∅)).

Definition merged_runtime : runtime :=
  Runtime {["A" := "/src"]}
          (fun p => if String.eqb p "/src" then Some plain_upstream else None)
          (fun m => "openshift/" +:+ m)
          (fun s => "registry/" +:+ s +:+ ":latest").

(** The scenario of the spec: image [foo] from alias [A] at [/src], one
    configured label, a literal base image, no rules. *)
Definition foo_config : config :=
  Config "foo" (Some {["release-type" := "stable"]}) (Some ["alice"; "bob"])
         (Some (SourceConfig (Some "A") None None None))
         (FromConfig None (Some "base:latest") None).

Definition foo_metadata : metadata :=
  Metadata "foo" "/images/foo" foo_config "/distgits/foo".

(** A checkout of [foo] whose snapshot is out of date. *)
Definition foo_checkout : gmap string node :=
  <["Dockerfile" := File "FROM scratch"]>
    (<[".oit" := Dir (<["Dockerfile.git.last" := File "FROM centos:6"]> ∅)]>
       (<["old.txt" := File "stale"]> ∅)).

(** ** Frames *)

(** [keeps R m]: [R] relates the state [m] is entered in to the state it
    leaves, whether it returns or raises. *)
Definition keeps {A} (R : state -> state -> Prop) (m : M A) : Prop :=
  forall st, match m st with Ok _ st' => R st st' | Raise _ st' => R st st' end.

(** Nothing was recorded and the comment block is as it was. *)
Definition same_log (st st' : state) : Prop :=
  records st' = records st /\ oit_comments st' = oit_comments st.

(** Top-level entries were removed at most: none added, none changed. *)
Definition shrinks (st st' : state) : Prop :=
  forall n, cwd st' !! n = cwd st !! n \/ cwd st' !! n = None.

(** A rule the interpreter can run: a [replace] with both fields. *)
Definition well_formed_rule (m : modification) : Prop :=
  action m = Some "replace" /\ is_Some (match_ m) /\ is_Some (replacement m).

(** How often [line] occurs among [lines]. *)
Definition count_line (line : string) (lines : list string) : nat :=
  List.length (List.filter (String.eqb line) lines).

(** The comment block [update_distgit_dir] ends with. *)
Definition final_comments (md : metadata) : list string :=
  (base_comments
   ++ match content_source (md_config md) with
      | Some _ => merge_comments
      | None => unmanaged_comments
      end)%list.

(** A top-level entry of the checkout after a merge of [src]: alternate
    build-files are gone, what the source has is copied over what pre-clean
    spared, and what only the checkout has stays if pre-clean spared it. *)
Definition merged_entry (src d : gmap string node) (n : string) : option node :=
  if is_variant n then None
  else match src !! n with
       | Some s => Some (overwrite s (if protected n then d !! n else None))
       | None => if protected n then d !! n else None
       end.

(** Nothing was recorded. *)
Definition same_records (st st' : state) : Prop := records st' = records st.

(** At most the owners' notification was recorded. *)
Definition notified (md : metadata) (st st' : state) : Prop :=
  exists notify_owner : bool,
    records st' = (records st ++ notification md notify_owner)%list.

(** * Properties *)

(** ** Lines *)

Example splitlines_terminators :
  Py.splitlines ("a" +:+ String Py.LF ("b" +:+ String Py.CR (String Py.LF (String Py.LF "c"))))
  = ["a"; "b"; ""; "c"].
Proof. reflexivity. Qed.

Example splitlines_final_terminator :
  Py.splitlines ("a" +:+ String Py.LF (String Py.LF "")) = ["a"; ""].
Proof. reflexivity. Qed.

Example strip_marker : Py.strip ("  " +:+ OIT_COMMENT_PREFIX) = "#oit##".
Proof. reflexivity. Qed.

Example replace_leftmost : Py.replace "aaa-ab" "aa" "x" = "xa-ab".
Proof. reflexivity. Qed.

Example replace_empty_match : Py.replace "abc" "" "-" = "-a-b-c-".
Proof. reflexivity. Qed.

Lemma ascii_eqb_false_of_no_break c :
  Py.is_break c = false -> Ascii.eqb c Py.LF = false /\ Ascii.eqb c Py.CR = false.
Proof.
  unfold Py.is_break. intros H. apply orb_false_elim in H. exact H.
Qed.

Lemma splitlines_nil s : Py.splitlines s = [] -> s = EmptyString.
Proof.
  destruct s as [|c s]; [done|]. simpl.
  destruct (Ascii.eqb c Py.LF); [done|].
  destruct (Ascii.eqb c Py.CR).
  - destruct s as [|c' s]; [done|]. by destruct (Ascii.eqb c' Py.LF).
  - by destruct (Py.splitlines s).
Qed.

(** A terminator-free line followed by "\n" is reported as that line. *)
Lemma splitlines_line l rest :
  no_break l = true ->
  Py.splitlines (l +:+ String Py.LF rest) = l :: Py.splitlines rest.
Proof.
  induction l as [|c l IH]; intros Hl; [done|].
  simpl in Hl. apply andb_true_iff in Hl as [Hc Hl].
  apply negb_true_iff, ascii_eqb_false_of_no_break in Hc as [Hlf Hcr].
  simpl. rewrite Hlf, Hcr. by rewrite (IH Hl).
Qed.

Lemma splitlines_single l :
  no_break l = true ->
  Py.splitlines l = match l with EmptyString => [] | _ => [l] end.
Proof.
  induction l as [|c l IH]; intros Hl; [done|].
  simpl in Hl. apply andb_true_iff in Hl as [Hc Hl].
  apply negb_true_iff, ascii_eqb_false_of_no_break in Hc as [Hlf Hcr].
  cbn [Py.splitlines]. rewrite Hlf, Hcr, (IH Hl). by destruct l.
Qed.

Lemma splitlines_no_break s : Forall (fun l => no_break l = true) (Py.splitlines s).
Proof.
  induction s as [|c s IH]; [constructor|].
  assert (Hsub : forall t, Forall (fun l => no_break l = true) (Py.splitlines t) ->
                 Forall (fun l => no_break l = true) (EmptyString :: Py.splitlines t))
    by (intros; by constructor).
  cbn [Py.splitlines].
  destruct (Ascii.eqb c Py.LF) eqn:Hlf; [by apply Hsub|].
  destruct (Ascii.eqb c Py.CR) eqn:Hcr.
  - destruct s as [|c' s']; [by apply Hsub|].
    destruct (Ascii.eqb c' Py.LF) eqn:Hlf'; [|by apply Hsub].
    apply Hsub. cbn [Py.splitlines] in IH. rewrite Hlf' in IH.
    by inversion IH.
  - assert (Hc : negb (Py.is_break c) = true)
      by (unfold Py.is_break; by rewrite Hlf, Hcr).
    destruct (Py.splitlines s) as [|l ls]; constructor; try done.
    + simpl. by rewrite Hc.
    + inversion IH; subst. simpl. by rewrite Hc.
    + by inversion IH.
Qed.

Lemma join_lines_cons l l' ls :
  Py.join_lines (l :: l' :: ls) = l +:+ String Py.LF (Py.join_lines (l' :: ls)).
Proof. reflexivity. Qed.

Lemma join_lines_cons_char c l ls :
  Py.join_lines (String c l :: ls) = String c (Py.join_lines (l :: ls)).
Proof. by destruct ls. Qed.

(** Splitting and joining again only normalises the terminators: without
    carriage returns, all that is lost is one final "\n". *)
Lemma join_splitlines_chomp s :
  no_cr s = true -> Py.join_lines (Py.splitlines s) = chomp s.
Proof.
  induction s as [|c s IH]; intros Hs; [done|].
  simpl in Hs. apply andb_true_iff in Hs as [Hc Hs]. apply negb_true_iff in Hc.
  specialize (IH Hs). cbn [Py.splitlines]. rewrite Hc.
  destruct (Ascii.eqb c Py.LF) eqn:Hlf.
  - apply Ascii.eqb_eq in Hlf as ->.
    destruct (Py.splitlines s) as [|l ls] eqn:Hsp.
    + apply splitlines_nil in Hsp as ->. reflexivity.
    + rewrite join_lines_cons, IH. destruct s; [done|reflexivity].
  - destruct (Py.splitlines s) as [|l ls] eqn:Hsp.
    + apply splitlines_nil in Hsp as ->. simpl. by rewrite Hlf.
    + rewrite join_lines_cons_char, IH. destruct s; [done|reflexivity].
Qed.

Lemma append_cons c s t : String c s +:+ t = String c (s +:+ t).
Proof. reflexivity. Qed.

Lemma append_nil_r s : s +:+ "" = s.
Proof. induction s as [|c s IH]; [done|]. by rewrite append_cons, IH. Qed.

Lemma append_assoc s t u : (s +:+ t) +:+ u = s +:+ (t +:+ u).
Proof. induction s as [|c s IH]; [done|]. by rewrite !append_cons, IH. Qed.

Lemma length_append s t : String.length (s +:+ t) = String.length s + String.length t.
Proof. induction s as [|c s IH]; [done|]. rewrite append_cons. simpl. by rewrite IH. Qed.

Lemma no_break_append s t : no_break (s +:+ t) = no_break s && no_break t.
Proof.
  induction s as [|c s IH]; [done|]. rewrite append_cons. simpl.
  by rewrite IH, andb_assoc.
Qed.

(** ** The managed header *)

Lemma with_oit_comments_cons c cs body :
  with_oit_comments (c :: cs) body
  = OIT_COMMENT_PREFIX +:+ c +:+ NL +:+ with_oit_comments cs body.
Proof. reflexivity. Qed.

Lemma oit_header_cons c cs :
  oit_header (c :: cs) = (OIT_COMMENT_PREFIX +:+ c +:+ NL) +:+ oit_header cs.
Proof.
  unfold oit_header. cbn [map].
  destruct (map _ cs) eqn:E; [by rewrite append_nil_r|reflexivity].
Qed.

Lemma with_oit_comments_header comments body :
  with_oit_comments comments body = oit_header comments +:+ body.
Proof.
  induction comments as [|c cs IH]; [done|].
  by rewrite with_oit_comments_cons, oit_header_cons, IH, !append_assoc.
Qed.

(** Reading the written build-file back line by line gives the header
    lines, then the lines of the body. *)
Lemma splitlines_with_oit_comments comments body :
  Forall (fun c => no_break c = true) comments ->
  Py.splitlines (with_oit_comments comments body)
  = (map (fun c => OIT_COMMENT_PREFIX +:+ c) comments ++ Py.splitlines body)%list.
Proof.
  induction 1 as [|c cs Hc _ IH]; [done|].
  rewrite with_oit_comments_cons.
  change (NL +:+ with_oit_comments cs body) with (String Py.LF (with_oit_comments cs body)).
  rewrite <- append_assoc, splitlines_line, IH; [done|].
  rewrite no_break_append. by rewrite Hc.
Qed.

Lemma count_blank_app l1 l2 :
  count_blank (l1 ++ l2)%list = count_blank l1 + count_blank l2.
Proof. unfold count_blank. by rewrite List.filter_app, length_app. Qed.

Lemma count_blank_cons l ls :
  count_blank (l :: ls) = (if String.eqb blank_oit_line l then 1 else 0) + count_blank ls.
Proof.
  unfold count_blank. cbn [List.filter].
  by destruct (String.eqb blank_oit_line l).
Qed.

(** The marker alone is what the empty comment is written as. *)
Lemma count_blank_header comments :
  count_blank (map (fun c => OIT_COMMENT_PREFIX +:+ c) comments)
  = List.length (List.filter (String.eqb "") comments).
Proof.
  induction comments as [|c cs IH]; [done|].
  cbn [map]. rewrite count_blank_cons, IH. cbn [List.filter].
  change (String.eqb blank_oit_line (OIT_COMMENT_PREFIX +:+ c)) with (String.eqb "" c).
  by destruct (String.eqb "" c).
Qed.

(** The slip: [strip] removes the marker's trailing space from a line that
    holds the marker alone, so the line is not recognised. *)
Lemma blank_oit_line_survives : is_oit_comment blank_oit_line = false.
Proof. reflexivity. Qed.

Lemma count_blank_strip lines :
  count_blank (List.filter (fun line => negb (is_oit_comment line)) lines)
  = count_blank lines.
Proof.
  induction lines as [|l ls IH]; [done|].
  cbn [List.filter]. destruct (is_oit_comment l) eqn:E; cbn [negb].
  - rewrite count_blank_cons, IH.
    destruct (String.eqb blank_oit_line l) eqn:El; [|done].
    apply String.eqb_eq in El as <-. by rewrite blank_oit_line_survives in E.
  - by rewrite !count_blank_cons, IH.
Qed.

Lemma count_blank_join lines :
  Forall (fun l => no_break l = true) lines ->
  count_blank (Py.splitlines (Py.join_lines lines)) = count_blank lines.
Proof.
  induction 1 as [|l ls Hl Hls IH]; [done|].
  destruct ls as [|l' ls].
  - change (Py.join_lines [l]) with l. rewrite splitlines_single by done.
    destruct l; [reflexivity|done].
  - rewrite join_lines_cons, splitlines_line by done.
    by rewrite (count_blank_cons l), (count_blank_cons l (l' :: ls)), IH.
Qed.

Lemma Forall_filter_bool {A} (P : A -> Prop) (f : A -> bool) l :
  Forall P l -> Forall P (List.filter f l).
Proof.
  induction 1 as [|x l Hx _ IH]; [constructor|].
  simpl. destruct (f x); [by constructor|done].
Qed.

Lemma count_blank_strip_oit_comments content :
  count_blank (Py.splitlines (strip_oit_comments content))
  = count_blank (Py.splitlines content).
Proof.
  unfold strip_oit_comments. rewrite count_blank_join, count_blank_strip; [done|].
  apply Forall_filter_bool, splitlines_no_break.
Qed.

(** Every run adds the blank header lines to those it found. *)
Lemma count_blank_rewrite_header comments content :
  Forall (fun c => no_break c = true) comments ->
  count_blank (Py.splitlines (rewrite_header comments content))
  = List.length (List.filter (String.eqb "") comments)
    + count_blank (Py.splitlines content).
Proof.
  intros Hc. unfold rewrite_header.
  rewrite splitlines_with_oit_comments, count_blank_app by done.
  by rewrite count_blank_header, count_blank_strip_oit_comments.
Qed.

Lemma base_comments_no_break : Forall (fun c => no_break c = true) base_comments.
Proof. repeat constructor. Qed.

Lemma merge_comments_no_break : Forall (fun c => no_break c = true) merge_comments.
Proof. repeat constructor. Qed.

Lemma unmanaged_comments_no_break :
  Forall (fun c => no_break c = true) unmanaged_comments.
Proof. repeat constructor. Qed.

(** A comment block with an empty comment in it is never rewritten to
    itself: the second pass keeps the blank header lines of the first and
    writes its own on top. *)
Lemma rewrite_header_grows comments content :
  Forall (fun c => no_break c = true) comments ->
  In "" comments ->
  rewrite_header comments (rewrite_header comments content)
  <> rewrite_header comments content.
Proof.
  intros Hc Hin Heq.
  apply (f_equal (fun s => count_blank (Py.splitlines s))) in Heq.
  rewrite !count_blank_rewrite_header in Heq by done.
  assert (Hpos : In "" (List.filter (String.eqb "") comments))
    by (apply List.filter_In; by split).
  destruct (List.filter (String.eqb "") comments); [done|].
  simpl in Heq. lia.
Qed.

(** C5 (the code departs from the claim).  The strip-then-prepend step is
    not idempotent.  On the build-file a first run wrote for "FROM base",
    the second run keeps the two header lines written for the empty
    comments (the marker alone) and prepends the whole block again; and
    whatever the content, with either comment block [update_distgit_dir]
    can hold, a second application differs from the first. *)
Theorem C5_header_rewrite_not_idempotent :
  let comments := (base_comments ++ unmanaged_comments)%list in
  rewrite_header comments (rewrite_header comments ("FROM base" +:+ NL))
  = oit_header comments
    +:+ blank_oit_line +:+ NL +:+ blank_oit_line +:+ NL +:+ "FROM base"
  /\ rewrite_header comments ("FROM base" +:+ NL)
     = oit_header comments +:+ "FROM base"
  /\ (forall content,
        rewrite_header comments (rewrite_header comments content)
        <> rewrite_header comments content)
  /\ (forall content,
        let comments' := (base_comments ++ merge_comments)%list in
        rewrite_header comments' (rewrite_header comments' content)
        <> rewrite_header comments' content).
Proof.
  split; [vm_compute; reflexivity|].
  split; [vm_compute; reflexivity|].
  split; intros content; apply rewrite_header_grows.
  - apply Forall_app; split;
      [apply base_comments_no_break | apply unmanaged_comments_no_break].
  - simpl. tauto.
  - apply Forall_app; split;
      [apply base_comments_no_break | apply merge_comments_no_break].
  - simpl. tauto.
Qed.

(** ** The layout of the written build-file *)

Lemma filter_all_true {A} (f : A -> bool) l :
  Forall (fun x => f x = true) l -> List.filter f l = l.
Proof.
  induction 1 as [|x l Hx _ IH]; [done|]. simpl. by rewrite Hx, IH.
Qed.

(** Content without managed comments and without carriage returns loses
    its final "\n" and nothing else. *)
Lemma strip_oit_comments_chomp content :
  no_cr content = true ->
  Forall (fun line => is_oit_comment line = false) (Py.splitlines content) ->
  strip_oit_comments content = chomp content.
Proof.
  intros Hcr Hlines. unfold strip_oit_comments.
  rewrite filter_all_true, join_splitlines_chomp; [done..|].
  eapply Forall_impl; [exact Hlines|]. intros l Hl. simpl in Hl. by rewrite Hl.
Qed.

(** C9, as stated, fails: the content "FROM base\n" holds no managed
    comment, so stripping the header from it leaves it as it is, yet what
    follows the header in the written build-file is "FROM base" without the
    trailing newline. *)
Lemma C9_counterexample :
  let content := "FROM base" +:+ NL in
  Forall (fun line => is_oit_comment line = false) (Py.splitlines content)
  /\ rewrite_header base_comments content = oit_header base_comments +:+ "FROM base"
  /\ rewrite_header base_comments content <> oit_header base_comments +:+ content.
Proof.
  split; [repeat constructor|].
  split; [vm_compute; reflexivity|].
  vm_compute. discriminate.
Qed.

(** C9 (amended).  The written build-file is the header lines, each the
    marker, the comment and "\n", followed by the lines of the content that
    are not managed comments, joined by "\n": terminators are normalised and
    the last line has none.  For content free of managed comments and of
    carriage returns that is the content but for one final "\n". *)
Theorem C9_build_file_layout comments content :
  rewrite_header comments content
  = oit_header comments
    +:+ Py.join_lines
          (List.filter (fun line => negb (is_oit_comment line)) (Py.splitlines content))
  /\ (no_cr content = true ->
      Forall (fun line => is_oit_comment line = false) (Py.splitlines content) ->
      rewrite_header comments content = oit_header comments +:+ chomp content).
Proof.
  split.
  - unfold rewrite_header. by rewrite with_oit_comments_header.
  - intros Hcr Hlines. unfold rewrite_header.
    by rewrite with_oit_comments_header, strip_oit_comments_chomp.
Qed.

Lemma C9_build_file_layout_witness :
  rewrite_header base_comments ("FROM base" +:+ NL +:+ "RUN true" +:+ NL)
  = oit_header base_comments +:+ ("FROM base" +:+ NL +:+ "RUN true").
Proof.
  apply (C9_build_file_layout base_comments ("FROM base" +:+ NL +:+ "RUN true" +:+ NL)).
  - reflexivity.
  - repeat constructor.
Defined.

(** ** File operations at the top of the checkout *)

Lemma lookup_path_top n st : lookup_path [n] st = cwd st !! n.
Proof. unfold lookup_path. simpl. by destruct (cwd st !! n). Qed.

Lemma store_top n v e st :
  store [n] v e st
  = Ok tt (set_cwd (match v with
                    | Some x => <[n := x]> (cwd st)
                    | None => delete n (cwd st)
                    end) st).
Proof. reflexivity. Qed.

Lemma set_cwd_set_cwd d d' st : set_cwd d' (set_cwd d st) = set_cwd d' st.
Proof. reflexivity. Qed.

Lemma set_cwd_id st : set_cwd (cwd st) st = st.
Proof. by destruct st. Qed.

Lemma elem_of_listing (d : gmap string node) n :
  n ∈ (map_to_list d).*1 <-> is_Some (d !! n).
Proof.
  rewrite list_elem_of_fmap. split.
  - intros [[k v] [-> Hin]]. apply elem_of_map_to_list in Hin. by exists v.
  - intros [v Hv]. exists (n, v). split; [done|]. by apply elem_of_map_to_list.
Qed.

(** ** Pre-clean *)

(** What the loop body does to an entry that exists. *)
Lemma pre_clean_entry_run ent st :
  is_Some (cwd st !! ent) ->
  pre_clean_entry ent st
  = Ok tt (if protected ent then st else set_cwd (delete ent (cwd st)) st).
Proof.
  intros [nd Hnd]. unfold pre_clean_entry, protected.
  destruct (Py.startswith ent ".") eqn:Hhidden; [done|].
  destruct (bool_decide (ent ∈ ["additional-tags"])) eqn:Hallow; [done|].
  cbn [orb]. unfold bind, isfile, os_remove, shutil_rmtree.
  rewrite !lookup_path_top, Hnd.
  destruct nd; by rewrite lookup_path_top, Hnd, store_top.
Qed.

Lemma pre_clean_loop ents : forall st,
  NoDup ents ->
  (forall n, n ∈ ents -> is_Some (cwd st !! n)) ->
  exists d',
    for_each ents pre_clean_entry st = Ok tt (set_cwd d' st)
    /\ forall n, d' !! n
         = if bool_decide (n ∈ ents) && negb (protected n) then None else cwd st !! n.
Proof.
  induction ents as [|ent rest IH]; intros st Hnd Hex.
  - exists (cwd st). split; [by rewrite set_cwd_id|]. intros n.
    by rewrite bool_decide_eq_false_2 by apply not_elem_of_nil.
  - apply NoDup_cons in Hnd as [Hfresh Hnd].
    cbn [for_each]. unfold bind at 1.
    rewrite pre_clean_entry_run by (apply Hex; left).
    set (st1 := if protected ent then st else set_cwd (delete ent (cwd st)) st).
    assert (Hst1 : forall n, n <> ent -> cwd st1 !! n = cwd st !! n).
    { intros n Hne. unfold st1. destruct (protected ent); [done|].
      simpl. by rewrite lookup_delete_ne. }
    destruct (IH st1 Hnd) as (d' & Hrun & Hd').
    { intros n Hn. rewrite Hst1; [apply Hex; by right|]. by intros ->. }
    exists d'. split.
    { rewrite Hrun. unfold st1. by destruct (protected ent). }
    intros n. rewrite Hd'.
    destruct (decide (n = ent)) as [->|Hne].
    + rewrite (bool_decide_eq_false_2 (ent ∈ rest)) by done.
      rewrite (bool_decide_eq_true_2 (ent ∈ ent :: rest)) by left.
      cbn [andb]. unfold st1. destruct (protected ent); [done|].
      simpl. by rewrite lookup_delete_eq.
    + rewrite Hst1 by done.
      rewrite (bool_decide_ext (n ∈ ent :: rest) (n ∈ rest)); [done|].
      rewrite elem_of_cons. split; [by intros [?|?]|by right].
Qed.

(** Pre-clean always succeeds, touches only the checkout, and leaves in it
    exactly the protected entries, as they were. *)
Lemma pre_clean_run st :
  exists d',
    pre_clean st = Ok tt (set_cwd d' st)
    /\ forall ent, d' !! ent = if protected ent then cwd st !! ent else None.
Proof.
  destruct (pre_clean_loop (map_to_list (cwd st)).*1 st) as (d' & Hrun & Hd').
  - apply NoDup_fst_map_to_list.
  - intros n. apply elem_of_listing.
  - exists d'. split; [exact Hrun|]. intros ent. rewrite Hd'.
    destruct (protected ent); cbn [negb]; [by rewrite andb_false_r|].
    rewrite andb_true_r. case_bool_decide as Hin; [done|].
    rewrite elem_of_listing in Hin. by apply eq_None_not_Some.
Qed.



(** After pre-clean of the example only [old.txt] is gone. *)
Example pre_clean_example :
  pre_clean (State example_checkout [] [])
  = Ok tt (State (delete "old.txt" example_checkout) [] []).
Proof. vm_compute. reflexivity. Qed.

(** ** The drift detector *)

Lemma lookup_snapshot st :
  lookup_path dockerfile_git_last_path st = snapshot (cwd st).
Proof.
  unfold lookup_path, snapshot, dockerfile_git_last_path. cbn [walk].
  destruct (cwd st !! ".oit") as [[|o]|]; [done| |done].
  by destruct (o !! "Dockerfile.git.last").
Qed.

Lemma store_snapshot v e st o :
  cwd st !! ".oit" = Some (Dir o) ->
  store dockerfile_git_last_path v e st
  = Ok tt (set_cwd (<[".oit" := Dir (match v with
                                     | Some x => <["Dockerfile.git.last" := x]> o
                                     | None => delete "Dockerfile.git.last" o
                                     end)]> (cwd st)) st).
Proof.
  intros Ho. unfold store, dockerfile_git_last_path. cbn [put_at]. by rewrite Ho.
Qed.

Lemma snapshot_Some d nd :
  snapshot d = Some nd ->
  exists o, d !! ".oit" = Some (Dir o) /\ o !! "Dockerfile.git.last" = Some nd.
Proof.
  unfold snapshot. destruct (d !! ".oit") as [[|o]|]; [done| |done]. by exists o.
Qed.

Lemma snapshot_with_snapshot data d o :
  d !! ".oit" = Some (Dir o) -> snapshot (with_snapshot data d) = Some (File data).
Proof.
  intros Ho. unfold with_snapshot, snapshot. rewrite Ho.
  by rewrite lookup_insert_eq, lookup_insert_eq.
Qed.

Lemma lookup_with_snapshot data d n :
  n <> ".oit" -> with_snapshot data d !! n = d !! n.
Proof.
  intros Hn. unfold with_snapshot.
  destruct (d !! ".oit") as [[|o]|]; [done| |done]. by rewrite lookup_insert_ne.
Qed.

(** The detector, whatever the snapshot, once a build-file is in place. *)
Lemma detect_drift_run st new :
  cwd st !! "Dockerfile" = Some (File new) ->
  detect_drift st
  = match snapshot (cwd st) with
    | Some (File old) =>
        if String.eqb old new then Ok false st
        else Ok true (set_cwd (with_snapshot new (cwd st)) st)
    | _ => Ok true st
    end.
Proof.
  intros Hdf. unfold detect_drift, bind at 1, isfile. rewrite lookup_snapshot.
  destruct (snapshot (cwd st)) as [[old|]|] eqn:Hsnap; [|done..].
  destruct (snapshot_Some _ _ Hsnap) as (o & Ho & Hlast).
  unfold bind at 1, filecmp_cmp.
  rewrite lookup_snapshot, Hsnap, lookup_path_top, Hdf.
  destruct (String.eqb old new); [done|]. cbn [negb].
  unfold bind at 1, os_remove. rewrite lookup_snapshot, Hsnap.
  rewrite (store_snapshot _ _ _ o Ho).
  unfold bind, shutil_copy. rewrite lookup_path_top. cbn [cwd set_cwd].
  rewrite lookup_insert_ne, Hdf by done.
  rewrite lookup_snapshot. unfold snapshot at 1. cbn [cwd set_cwd].
  rewrite lookup_insert_eq, lookup_delete_eq.
  unfold write_file. rewrite lookup_snapshot. unfold snapshot at 1. cbn [cwd set_cwd].
  rewrite lookup_insert_eq, lookup_delete_eq.
  erewrite store_snapshot by (cbn [cwd set_cwd]; apply lookup_insert_eq).
  cbn [cwd set_cwd ret]. rewrite insert_insert_eq, insert_delete_eq.
  unfold with_snapshot. by rewrite Ho.
Qed.

Lemma detect_drift_no_snapshot st :
  (forall old, snapshot (cwd st) <> Some (File old)) -> detect_drift st = Ok true st.
Proof.
  intros Hno. unfold detect_drift, bind, isfile. rewrite lookup_snapshot.
  destruct (snapshot (cwd st)) as [[old|]|]; [|done..]. by destruct (Hno old).
Qed.

(** C3.  Without a snapshot file at [.oit/Dockerfile.git.last] the
    detector answers [notify_owner = True] and changes nothing, so creates
    no snapshot.  With the merged build-file in place: a snapshot of other
    content makes it answer [True] and become a copy of the build-file, all
    else unchanged; a snapshot of the same content makes it answer [False]
    and change nothing. *)
Theorem C3_drift_detector st :
  ((forall old, snapshot (cwd st) <> Some (File old)) ->
     detect_drift st = Ok true st)
  /\ (forall new, cwd st !! "Dockerfile" = Some (File new) ->
        (forall old, snapshot (cwd st) = Some (File old) -> old <> new ->
           exists st',
             detect_drift st = Ok true st'
             /\ snapshot (cwd st') = Some (File new)
             /\ (forall n, n <> ".oit" -> cwd st' !! n = cwd st !! n)
             /\ records st' = records st
             /\ oit_comments st' = oit_comments st)
        /\ (snapshot (cwd st) = Some (File new) -> detect_drift st = Ok false st)).
Proof.
  split; [apply detect_drift_no_snapshot|].
  intros new Hdf. rewrite (detect_drift_run st new Hdf). split.
  - intros old Hsnap Hne. rewrite Hsnap.
    destruct (String.eqb old new) eqn:E; [by apply String.eqb_eq in E|].
    eexists. split; [reflexivity|]. cbn [cwd records oit_comments set_cwd].
    destruct (snapshot_Some _ _ Hsnap) as (o & Ho & _).
    split; [by eapply snapshot_with_snapshot|].
    split; [|done]. intros n Hn. by apply lookup_with_snapshot.
  - intros ->. by rewrite String.eqb_refl.
Qed.

Lemma C3_drift_detector_witness :
  detect_drift (State (drift_checkout None) [] [])
  = Ok true (State (drift_checkout None) [] [])
  /\ (exists st',
        detect_drift (State (drift_checkout (Some "FROM base:1")) [] []) = Ok true st'
        /\ snapshot (cwd st') = Some (File "FROM base:2"))
  /\ detect_drift (State (drift_checkout (Some "FROM base:2")) [] [])
     = Ok false (State (drift_checkout (Some "FROM base:2")) [] []).
Proof.
  split; [|split].
  - apply (C3_drift_detector (State (drift_checkout None) [] [])).
    intros old. vm_compute. discriminate.
  - destruct (C3_drift_detector (State (drift_checkout (Some "FROM base:1")) [] []))
      as (_ & Hfile).
    destruct (Hfile "FROM base:2" eq_refl) as (Hdiff & _).
    destruct (Hdiff "FROM base:1") as (st' & Hrun & Hsnap & _);
      [reflexivity|discriminate|].
    exists st'. by split.
  - destruct (C3_drift_detector (State (drift_checkout (Some "FROM base:2")) [] []))
      as (_ & Hfile).
    destruct (Hfile "FROM base:2" eq_refl) as (_ & Hsame).
    by apply Hsame.
Defined.

(** ** [str.replace] *)

Lemma prefix_append old s : String.prefix old (old +:+ s) = true.
Proof.
  induction old as [|a old IH]; [by destruct s|].
  rewrite append_cons. simpl. by destruct (ascii_dec a a).
Qed.

Lemma replace_scan_skip old new t : forall k s,
  Py.replace_scan (String.length t + k) old new (t +:+ s)
  = Py.replace_scan k old new s.
Proof.
  induction t as [|a t IH]; intros k s; [done|].
  rewrite append_cons. simpl. apply IH.
Qed.

(** At an occurrence of [old] the replacement is written and the scan
    resumes after the occurrence. *)
Lemma replace_at_occurrence old new s :
  old <> "" -> Py.replace (old +:+ s) old new = new +:+ Py.replace s old new.
Proof.
  intros Hold. destruct old as [|a old]; [done|]. unfold Py.replace.
  rewrite append_cons. cbn [Py.replace_scan].
  pose proof (prefix_append (String a old) s) as Hpre.
  rewrite append_cons in Hpre. rewrite Hpre. f_equal.
  cbn [String.length]. rewrite Nat.sub_succ, Nat.sub_0_r.
  rewrite <- (Nat.add_0_r (String.length old)). apply replace_scan_skip.
Qed.

(** Elsewhere the character is copied. *)
Lemma replace_past_other old new c s :
  old <> "" -> String.prefix old (String c s) = false ->
  Py.replace (String c s) old new = String c (Py.replace s old new).
Proof.
  intros Hold Hpre. destruct old as [|a old]; [done|]. unfold Py.replace.
  cbn [Py.replace_scan]. by rewrite Hpre.
Qed.

Lemma replace_nil old new : old <> "" -> Py.replace "" old new = "".
Proof. by destruct old. Qed.

(** Text in which [old] does not occur is returned as it is. *)
Lemma replace_absent old new s :
  old <> "" -> Py.occurs old s = false -> Py.replace s old new = s.
Proof.
  intros Hold. induction s as [|c s IH]; intros Hocc; [by apply replace_nil|].
  cbn [Py.occurs] in Hocc. apply orb_false_elim in Hocc as [Hpre Hocc].
  by rewrite replace_past_other, IH.
Qed.

(** ** The modification interpreter *)

(** Rules run in list order, each on the text the rules before it left. *)
Lemma apply_modifications_app ms1 ms2 text :
  apply_modifications (ms1 ++ ms2)%list text
  = match apply_modifications ms1 text with
    | inl e => inl e
    | inr text' => apply_modifications ms2 text'
    end.
Proof.
  revert text. induction ms1 as [|m ms1 IH]; intros text; [done|].
  cbn [app apply_modifications].
  destruct (apply_modification m text); [done|apply IH].
Qed.

Lemma apply_modification_replace old new text :
  apply_modification (Modification (Some "replace") (Some old) (Some new)) text
  = if String.eqb (Py.replace text old new) text
    then inl (IOError (ReplaceNoChange old new))
    else inr (Py.replace text old new).
Proof. reflexivity. Qed.

(** C6.  A [replace] rule without [match] or without [replacement] fails
    (the configuration error is the failed [assert]); with both it
    substitutes [replacement] for [match] throughout the text, literally,
    and fails (the ineffective-rule error) exactly when the text comes out
    as it went in; rules run in list order, each on the output of the one
    before. *)
Theorem C6_replace_rule m text :
  (action m = Some "replace" ->
   (match_ m = None \/ replacement m = None ->
      apply_modification m text = inl AssertionError)
   /\ (forall old new, match_ m = Some old -> replacement m = Some new ->
         (Py.replace text old new = text ->
            apply_modification m text = inl (IOError (ReplaceNoChange old new)))
         /\ (Py.replace text old new <> text ->
               apply_modification m text = inr (Py.replace text old new))
         /\ (old <> "" -> Py.occurs old text = false -> Py.replace text old new = text)
         /\ (old <> "" -> forall s,
               Py.replace (old +:+ s) old new = new +:+ Py.replace s old new)
         /\ (old <> "" -> forall c s, String.prefix old (String c s) = false ->
               Py.replace (String c s) old new = String c (Py.replace s old new))))
  /\ (forall rest,
        apply_modifications (m :: rest) text
        = match apply_modification m text with
          | inl e => inl e
          | inr text' => apply_modifications rest text'
          end)
  /\ (forall ms1 ms2,
        apply_modifications (ms1 ++ ms2)%list text
        = match apply_modifications ms1 text with
          | inl e => inl e
          | inr text' => apply_modifications ms2 text'
          end).
Proof.
  split; [|split; [reflexivity|intros; apply apply_modifications_app]].
  intros Hact. destruct m as [a mt rp]. simpl in Hact. subst a. split.
  - cbn [match_ replacement]. unfold apply_modification.
    rewrite bool_decide_eq_true_2 by done. cbn [match_ replacement].
    intros [-> | ->]; [done|]. by destruct mt.
  - cbn [match_ replacement]. intros old new [= ->] [= ->].
    rewrite apply_modification_replace. repeat split.
    + intros ->. by rewrite String.eqb_refl.
    + intros Hne. destruct (String.eqb (Py.replace text old new) text) eqn:E; [|done].
      by apply String.eqb_eq in E.
    + intros. by apply replace_absent.
    + intros. by apply replace_at_occurrence.
    + intros. by apply replace_past_other.
Qed.

Lemma C6_replace_rule_witness :
  let m := Modification (Some "replace") (Some "centos") (Some "rhel") in
  apply_modification m "FROM centos:7 AS centos"
  = inr "FROM rhel:7 AS rhel"
  /\ apply_modification m "FROM fedora"
     = inl (IOError (ReplaceNoChange "centos" "rhel"))
  /\ apply_modification (Modification (Some "replace") None (Some "rhel")) "FROM centos"
     = inl AssertionError.
Proof.
  split; [|split].
  - destruct (C6_replace_rule (Modification (Some "replace") (Some "centos") (Some "rhel"))
                "FROM centos:7 AS centos") as (Hrule & _).
    destruct (Hrule eq_refl) as (_ & Hboth).
    destruct (Hboth "centos" "rhel" eq_refl eq_refl) as (_ & Hchanged & _).
    apply Hchanged. vm_compute. discriminate.
  - destruct (C6_replace_rule (Modification (Some "replace") (Some "centos") (Some "rhel"))
                "FROM fedora") as (Hrule & _).
    destruct (Hrule eq_refl) as (_ & Hboth).
    destruct (Hboth "centos" "rhel" eq_refl eq_refl) as (Hsame & _).
    apply Hsame. reflexivity.
  - destruct (C6_replace_rule (Modification (Some "replace") None (Some "rhel"))
                "FROM centos") as (Hrule & _).
    destruct (Hrule eq_refl) as (Hmissing & _).
    apply Hmissing. by left.
Defined.

Lemma _run_modifications_run ms st data :
  cwd st !! "Dockerfile" = Some (File data) ->
  _run_modifications ms st
  = match apply_modifications ms data with
    | inl e => Raise e st
    | inr data' => Ok tt (set_cwd (<["Dockerfile" := File data']> (cwd st)) st)
    end.
Proof.
  intros Hdf. unfold _run_modifications, bind, read_file.
  rewrite lookup_path_top, Hdf.
  destruct (apply_modifications ms data) as [e|data']; [done|].
  cbn [lift ret]. unfold write_file. by rewrite lookup_path_top, Hdf, store_top.
Qed.

(** Whatever makes [_run_modifications] raise, the state it leaves is the
    state it found. *)
Lemma _run_modifications_raise ms st e st' :
  _run_modifications ms st = Raise e st' -> st' = st.
Proof.
  unfold _run_modifications, bind, read_file. rewrite lookup_path_top.
  destruct (cwd st !! "Dockerfile") as [[data|]|] eqn:Hdf; [|congruence..].
  destruct (apply_modifications ms data) as [e'|data']; cbn [lift raise ret];
    [congruence|].
  unfold write_file. rewrite lookup_path_top, Hdf, store_top. congruence.
Qed.

(** C10.  The build-file is read before the first rule and written after
    the last: whatever makes the method raise, it raises in the state in
    which it was entered; when a rule fails, by a missing field, a replace
    without effect or an unknown action, that is what happens, and only
    when every rule succeeded is the build-file replaced, by the text the
    last rule left. *)
Theorem C10_modifications_atomic ms st :
  (forall e st', _run_modifications ms st = Raise e st' -> st' = st)
  /\ (forall data, cwd st !! "Dockerfile" = Some (File data) ->
        (forall e, apply_modifications ms data = inl e ->
                   _run_modifications ms st = Raise e st)
        /\ (forall data', apply_modifications ms data = inr data' ->
              _run_modifications ms st
              = Ok tt (set_cwd (<["Dockerfile" := File data']> (cwd st)) st))).
Proof.
  split; [apply _run_modifications_raise|].
  intros data Hdf. rewrite (_run_modifications_run ms st data Hdf). split.
  - by intros e ->.
  - by intros data' ->.
Qed.

Lemma C10_modifications_atomic_witness :
  _run_modifications stale_rules (State modified_checkout [] [])
  = Raise (IOError (ReplaceNoChange "centos:7" "rhel:7")) (State modified_checkout [] [])
  /\ _run_modifications [Modification (Some "replace") (Some "centos") (Some "rhel");
                         Modification (Some "append") None None]
       (State modified_checkout [] [])
     = Raise (IOError (UnknownAction (Some "append"))) (State modified_checkout [] [])
  /\ _run_modifications [Modification (Some "replace") (Some "centos") (Some "rhel")]
       (State modified_checkout [] [])
     = Ok tt (State (<["Dockerfile" := File "FROM rhel:7"]> modified_checkout) [] []).
Proof.
  split; [|split].
  - destruct (C10_modifications_atomic stale_rules (State modified_checkout [] []))
      as (_ & Hrun).
    by apply (Hrun "FROM centos:7").
  - destruct (C10_modifications_atomic
                [Modification (Some "replace") (Some "centos") (Some "rhel");
                 Modification (Some "append") None None]
                (State modified_checkout [] [])) as (_ & Hrun).
    by apply (Hrun "FROM centos:7").
  - destruct (C10_modifications_atomic
                [Modification (Some "replace") (Some "centos") (Some "rhel")]
                (State modified_checkout [] [])) as (_ & Hrun).
    by apply (Hrun "FROM centos:7").
Defined.

(** ** The manifest rename *)

(** With a build-file configured under another name, no regular file
    [Dockerfile] is left when the rename step is over. *)
Lemma rename_dockerfile_loses_dockerfile md st st' dockerfile_name :
  content_source (md_config md) ≫= dockerfile = Some dockerfile_name ->
  dockerfile_name <> "Dockerfile" ->
  rename_dockerfile md st = Ok tt st' ->
  forall data, cwd st' !! "Dockerfile" <> Some (File data).
Proof.
  intros Hcfg Hname. unfold rename_dockerfile. rewrite Hcfg.
  destruct (String.eqb dockerfile_name "Dockerfile") eqn:E;
    [by apply String.eqb_eq in E|]. cbn [negb].
  unfold bind at 1, isfile. rewrite lookup_path_top.
  set (st1 := match cwd st !! "Dockerfile" with
              | Some (File _) => set_cwd (delete "Dockerfile" (cwd st)) st
              | _ => st
              end).
  assert (Hst1 : forall data, cwd st1 !! "Dockerfile" <> Some (File data)).
  { intros data. unfold st1.
    destruct (cwd st !! "Dockerfile") as [[d|o]|] eqn:Hdf; cbn [cwd set_cwd];
      [by rewrite lookup_delete_eq|by rewrite Hdf..]. }
  assert (Hrun : forall k : unit -> M unit,
             bind (when (match cwd st !! "Dockerfile" with
                         | Some (File _) => true
                         | _ => false
                         end) (os_remove ["Dockerfile"])) k st = k tt st1).
  { intros k. unfold bind, st1, when, os_remove.
    destruct (cwd st !! "Dockerfile") as [[d|o]|] eqn:Hdf; try done.
    by rewrite lookup_path_top, Hdf, store_top. }
  rewrite Hrun. clear Hrun. unfold os_rename. rewrite lookup_path_top.
  destruct (cwd st1 !! dockerfile_name) as [s|] eqn:Hsrc; [|done].
  case_bool_decide as Hsame; [intros [= <-]; apply Hst1|].
  rewrite lookup_path_top.
  destruct (match s, cwd st1 !! "Dockerilfe" with
            | _, None => true
            | File _, Some (File _) => true
            | Dir _, Some (Dir es) => bool_decide (es = ∅)
            | _, _ => false
            end); [|done].
  cbn [put_at]. intros [= <-] data. cbn [cwd set_cwd].
  rewrite lookup_insert_ne by done. rewrite lookup_delete_ne by done. apply Hst1.
Qed.

(** C2 (the code departs from the claim).  With [Dockerfile.rhel7]
    configured and present after the copy, the default-named build-file is
    removed and the configured file is renamed, but to [Dockerilfe]: no
    [Dockerfile] is left, the existence check that follows fails, and so
    does the reconciliation of the image. *)
Theorem C2_rename_misses_dockerfile :
  (exists st',
     rename_dockerfile rhel7_metadata (State upstream [] []) = Ok tt st'
     /\ cwd st' !! "Dockerfile" = None
     /\ cwd st' !! "Dockerfile.rhel7" = None
     /\ cwd st' !! "Dockerilfe" = Some (File "FROM rhel7:latest")
     /\ assert_file ["Dockerfile"] st' = Raise (AssertFileFailed ["Dockerfile"]) st')
  /\ (forall acc version release, exists st',
        update_distgit_dir example_runtime rhel7_metadata acc version release
          (State example_checkout [] [])
        = Raise (AssertFileFailed ["Dockerfile"]) st').
Proof.
  split.
  - eexists. split; [vm_compute; reflexivity|]. by vm_compute.
  - intros acc version release. eexists. vm_compute. reflexivity.
Qed.

(** ** Labels and base image *)

Lemma set_labels_fold (l : list (string * string)) : forall dfp,
  NoDup l.*1 ->
  foldl (fun d kv => set_label kv.1 kv.2 d) dfp l
  = Dfp (list_to_map l ∪ dfp_labels dfp) (dfp_baseimage dfp) (dfp_original dfp).
Proof.
  induction l as [|[k v] l IH]; intros dfp Hnd.
  - cbn [foldl list_to_map foldr]. rewrite (left_id_L ∅ (∪)). by destruct dfp.
  - cbn [fmap list_fmap fst] in Hnd. apply NoDup_cons in Hnd as [Hk Hnd].
    cbn [foldl]. rewrite IH by done. cbn [set_label dfp_labels dfp_baseimage dfp_original fst snd].
    f_equal. cbn [list_to_map foldr].
    rewrite <- insert_union_l. rewrite <- insert_union_r; [done|].
    by apply not_elem_of_list_to_map_1.
Qed.

(** The loop over the configured labels lays them over the parsed ones. *)
Lemma set_config_labels_run md dfp :
  set_config_labels md dfp
  = Dfp (match labels (md_config md) with
         | Some ls => ls ∪ dfp_labels dfp
         | None => dfp_labels dfp
         end) (dfp_baseimage dfp) (dfp_original dfp).
Proof.
  unfold set_config_labels. destruct (labels (md_config md)) as [ls|].
  - rewrite set_labels_fold by apply NoDup_fst_map_to_list.
    by rewrite list_to_map_to_list.
  - by destruct dfp.
Qed.

Lemma set_from_labels rt md version release dfp :
  dfp_labels (set_from rt md version release dfp) = dfp_labels dfp.
Proof.
  unfold set_from.
  by destruct (member (from (md_config md))), (image (from (md_config md))),
    (stream (from (md_config md))).
Qed.

Lemma set_from_baseimage rt md version release dfp :
  dfp_baseimage (set_from rt md version release dfp)
  = match stream (from (md_config md)) with
    | Some s => Some (resolve_stream rt s)
    | None =>
        match image (from (md_config md)) with
        | Some i => Some i
        | None =>
            match member (from (md_config md)) with
            | Some m => Some (resolve_image rt m +:+ ":" +:+ version +:+ "-" +:+ release)
            | None => dfp_baseimage dfp
            end
        end
    end.
Proof.
  unfold set_from.
  by destruct (member (from (md_config md))), (image (from (md_config md))),
    (stream (from (md_config md))).
Qed.

Lemma rewrite_metadata_baseimage rt md version release dfp :
  dfp_baseimage (rewrite_metadata rt md version release dfp)
  = dfp_baseimage (set_from rt md version release dfp).
Proof.
  unfold rewrite_metadata. cbn [set_label dfp_baseimage].
  rewrite !set_from_baseimage. by rewrite set_config_labels_run.
Qed.



Lemma rewrite_metadata_labels rt md version release dfp :
  dfp_labels (rewrite_metadata rt md version release dfp)
  = <["release" := release]>
      (<["version" := version]>
         (<["name" := name (md_config md)]>
            (<["com.redhat.component" := md_name md]>
               (<["name" := name (md_config md)]>
                  (match labels (md_config md) with
                   | Some ls => ls ∪ dfp_labels dfp
                   | None => dfp_labels dfp
                   end))))).
Proof.
  unfold rewrite_metadata. cbn [set_label dfp_labels].
  by rewrite set_from_labels, set_config_labels_run.
Qed.



(** ** Reconciliation of an image without upstream source *)

Lemma lookup_ensure_oit d n : n <> ".oit" -> ensure_oit d !! n = d !! n.
Proof.
  intros Hn. unfold ensure_oit. destruct (d !! ".oit"); [done|].
  by rewrite lookup_insert_ne.
Qed.

Lemma ensure_oit_dir d :
  (forall data, d !! ".oit" <> Some (File data)) ->
  exists o, ensure_oit d !! ".oit" = Some (Dir o).
Proof.
  intros Hd. unfold ensure_oit.
  destruct (d !! ".oit") as [[data|o]|] eqn:E.
  - by destruct (Hd data).
  - by exists o.
  - exists ∅. by rewrite lookup_insert_eq.
Qed.

Lemma ensure_oit_idemp d :
  (forall data, d !! ".oit" <> Some (File data)) -> ensure_oit (ensure_oit d) = ensure_oit d.
Proof.
  intros Hd. destruct (ensure_oit_dir d Hd) as [o Ho].
  unfold ensure_oit at 1. by rewrite Ho.
Qed.

Lemma bind_ok {A B} (m : M A) (k : A -> M B) st a st' :
  m st = Ok a st' -> bind m k st = k a st'.
Proof. unfold bind. by intros ->. Qed.

Lemma bind_raise {A B} (m : M A) (k : A -> M B) st e st' :
  m st = Raise e st' -> bind m k st = Raise e st'.
Proof. unfold bind. by intros ->. Qed.

(** [.oit] is made if it is missing. *)
Lemma make_oit_dir_run {B} (k : unit -> M B) st :
  (forall data, cwd st !! ".oit" <> Some (File data)) ->
  (has_oit <- isdir [".oit"] ;; when (negb has_oit) (os_mkdir [".oit"]) ;;; k tt) st
  = k tt (set_cwd (ensure_oit (cwd st)) st).
Proof.
  intros Hoit. unfold bind at 1, isdir, ensure_oit. rewrite lookup_path_top.
  destruct (cwd st !! ".oit") as [[data|o]|] eqn:E.
  - by destruct (Hoit data).
  - cbn [negb when]. by rewrite set_cwd_id.
  - cbn [negb when]. unfold bind, os_mkdir.
    by rewrite lookup_path_top, E, store_top.
Qed.

Lemma assert_file_ok {B} (k : unit -> M B) n st data :
  cwd st !! n = Some (File data) ->
  (assert_file [n] ;;; k tt) st = k tt st.
Proof.
  intros Hn. unfold assert_file, bind, isfile.
  by rewrite lookup_path_top, Hn.
Qed.

Lemma assert_file_raise {B} (k : unit -> M B) n st :
  (forall data, cwd st !! n <> Some (File data)) ->
  (assert_file [n] ;;; k tt) st = Raise (AssertFileFailed [n]) st.
Proof.
  intros Hn. unfold assert_file, bind, isfile.
  rewrite lookup_path_top. destruct (cwd st !! n) as [[data|o]|] eqn:E; try done.
  by destruct (Hn data).
Qed.

(** From the build-file on, whatever came before: the build-file is
    parsed, its metadata rewritten, and the result written under the
    comment block. *)
Lemma finalize_run rt md acc version release st text :
  cwd st !! "Dockerfile" = Some (File text) ->
  (dfp <- open_dockerfile acc ;;
   let dfp := rewrite_metadata rt md version release dfp in
   let df_content := strip_oit_comments (render acc dfp) in
   comments <- get_oit_comments ;;
   write_file ["Dockerfile"] (with_oit_comments comments df_content)) st
  = Ok tt (set_cwd (<["Dockerfile" :=
                       File (final_text rt md acc version release (oit_comments st) text)]>
                      (cwd st)) st).
Proof.
  intros Hdf. unfold bind, open_dockerfile, bind, read_file.
  rewrite lookup_path_top, Hdf. cbn [ret get_oit_comments].
  unfold write_file. by rewrite lookup_path_top, Hdf, store_top.
Qed.

Lemma update_distgit_dir_unmanaged rt md acc version release st text :
  content_source (md_config md) = None ->
  cwd st !! "Dockerfile" = Some (File text) ->
  (forall data, cwd st !! ".oit" <> Some (File data)) ->
  update_distgit_dir rt md acc version release st
  = Ok tt (State (<["Dockerfile" :=
                     File (final_text rt md acc version release
                             (base_comments ++ unmanaged_comments)%list text)]>
                    (ensure_oit (cwd st)))
                 (records st)
                 (base_comments ++ unmanaged_comments)%list).
Proof.
  intros Hsrc Hdf Hoit. unfold update_distgit_dir. rewrite Hsrc.
  erewrite bind_ok by reflexivity.
  rewrite (make_oit_dir_run (fun _ => _)) by done.
  erewrite bind_ok by reflexivity.
  cbn [cwd records oit_comments set_cwd].
  erewrite (assert_file_ok (fun _ => _)) by (cbn [cwd]; by rewrite lookup_ensure_oit).
  erewrite bind_ok by reflexivity.
  erewrite finalize_run by (cbn [cwd]; by rewrite lookup_ensure_oit).
  reflexivity.
Qed.

(** The blank header lines of a written build-file: those of the comment
    block and those that were in the content. *)
Lemma count_blank_final_text rt md acc version release comments text :
  Forall (fun c => no_break c = true) comments ->
  count_blank (Py.splitlines (final_text rt md acc version release comments text))
  = List.length (List.filter (String.eqb "") comments)
    + count_blank (Py.splitlines (rewritten rt md acc version release text)).
Proof. intros Hc. unfold final_text. by apply count_blank_rewrite_header. Qed.

(** C1 (the code departs from the claim).  An image without upstream
    source is reconciled in place: the second run reads the build-file the
    first one wrote.  Both runs succeed; provided the accessor's content
    keeps the comment lines of the file it read, the second build-file
    differs from the first, by the blank header lines that the strip left
    in. *)
Theorem C1_second_run_not_identical rt md acc version release st text :
  content_source (md_config md) = None ->
  cwd st !! "Dockerfile" = Some (File text) ->
  (forall data, cwd st !! ".oit" <> Some (File data)) ->
  let comments := (base_comments ++ unmanaged_comments)%list in
  let out1 := final_text rt md acc version release comments text in
  let out2 := final_text rt md acc version release comments out1 in
  count_blank (Py.splitlines out1)
  <= count_blank (Py.splitlines (rewritten rt md acc version release out1)) ->
  exists st1 st2,
    update_distgit_dir rt md acc version release st = Ok tt st1
    /\ cwd st1 !! "Dockerfile" = Some (File out1)
    /\ update_distgit_dir rt md acc version release st1 = Ok tt st2
    /\ cwd st2 !! "Dockerfile" = Some (File out2)
    /\ out2 <> out1.
Proof.
  intros Hsrc Hdf Hoit comments out1 out2 Hkeeps.
  assert (Hc : Forall (fun c => no_break c = true) comments)
    by (apply Forall_app; split;
        [apply base_comments_no_break | apply unmanaged_comments_no_break]).
  eexists _, _. split; [by apply update_distgit_dir_unmanaged|].
  split; [cbn [cwd]; by rewrite lookup_insert_eq|].
  split.
  { eapply update_distgit_dir_unmanaged; [done| |].
    - cbn [cwd]. apply lookup_insert_eq.
    - intros data. cbn [cwd]. rewrite lookup_insert_ne by done.
      destruct (ensure_oit_dir _ Hoit) as [o ->]. done. }
  split; [cbn [cwd]; by rewrite lookup_insert_eq|].
  intros Heq. apply (f_equal (fun s => count_blank (Py.splitlines s))) in Heq.
  unfold out2 in Heq. rewrite count_blank_final_text in Heq by done.
  fold out1 in Heq. change (List.length (List.filter (String.eqb "") comments)) with 2 in Heq.
  lia.
Qed.

Lemma C1_second_run_not_identical_witness :
  exists st1 st2 out1 out2,
    update_distgit_dir example_runtime plain_metadata toy_accessor "1.2" "3"
      (State plain_checkout [] []) = Ok tt st1
    /\ cwd st1 !! "Dockerfile" = Some (File out1)
    /\ update_distgit_dir example_runtime plain_metadata toy_accessor "1.2" "3" st1
       = Ok tt st2
    /\ cwd st2 !! "Dockerfile" = Some (File out2)
    /\ out2 <> out1.
Proof.
  destruct (C1_second_run_not_identical example_runtime plain_metadata toy_accessor
              "1.2" "3" (State plain_checkout [] []) ("FROM base" +:+ NL))
    as (st1 & st2 & Hrun1 & Hout1 & Hrun2 & Hout2 & Hne).
  - reflexivity.
  - reflexivity.
  - intros data. vm_compute. discriminate.
  - vm_compute. lia.
  - eexists st1, st2, _, _. repeat split; eauto.
Defined.

(** The two build-files of the example, as written. *)
Example second_run_example :
  let update := update_distgit_dir example_runtime plain_metadata toy_accessor "1.2" "3" in
  let body :=
    "FROM base" +:+ NL +:+ "LABEL com.redhat.component=foo" +:+ NL
    +:+ "LABEL name=openshift/foo" +:+ NL +:+ "LABEL version=1.2" +:+ NL
    +:+ "LABEL release=3" in
  let header := oit_header (base_comments ++ unmanaged_comments)%list in
  exists st1 st2,
    update (State plain_checkout [] []) = Ok tt st1
    /\ cwd st1 !! "Dockerfile" = Some (File (header +:+ body))
    /\ update st1 = Ok tt st2
    /\ cwd st2 !! "Dockerfile"
       = Some (File (header +:+ blank_oit_line +:+ NL +:+ blank_oit_line +:+ NL +:+ body)).
Proof.
  eexists _, _. split; [vm_compute; reflexivity|].
  split; [vm_compute; reflexivity|].
  split; [vm_compute; reflexivity|].
  vm_compute; reflexivity.
Qed.

(** ** Reconciliation of an image merged from upstream *)

Lemma lookup_merge_dir src d n :
  merge_dir src d !! n
  = match src !! n with
    | Some s => Some (overwrite s (d !! n))
    | None => d !! n
    end.
Proof.
  unfold merge_dir. rewrite lookup_merge.
  by destruct (src !! n), (d !! n).
Qed.

Lemma remove_variants_loop ents : forall st,
  NoDup ents ->
  (forall n, n ∈ ents -> is_variant n = true ->
             exists data, cwd st !! n = Some (File data)) ->
  exists d',
    for_each ents (fun ent => when (Py.startswith ent "Dockerfile.") (os_remove [ent])) st
    = Ok tt (set_cwd d' st)
    /\ forall n, d' !! n
         = if bool_decide (n ∈ ents) && is_variant n then None else cwd st !! n.
Proof.
  induction ents as [|ent rest IH]; intros st Hnd Hfiles.
  - exists (cwd st). split; [by rewrite set_cwd_id|]. intros n.
    by rewrite bool_decide_eq_false_2 by apply not_elem_of_nil.
  - apply NoDup_cons in Hnd as [Hfresh Hnd]. cbn [for_each].
    set (st1 := if is_variant ent then set_cwd (delete ent (cwd st)) st else st).
    assert (Hstep : when (Py.startswith ent "Dockerfile.") (os_remove [ent]) st = Ok tt st1).
    { unfold st1, is_variant. destruct (Py.startswith ent "Dockerfile.") eqn:Hv; [|done].
      destruct (Hfiles ent) as [data Hdata]; [by left|done|].
      cbn [when]. unfold os_remove. by rewrite lookup_path_top, Hdata, store_top. }
    rewrite (bind_ok _ _ _ _ _ Hstep).
    assert (Hst1 : forall n, n <> ent -> cwd st1 !! n = cwd st !! n).
    { intros n Hne. unfold st1. destruct (is_variant ent); [|done].
      cbn [cwd set_cwd]. by rewrite lookup_delete_ne. }
    destruct (IH st1 Hnd) as (d' & Hrun & Hd').
    { intros n Hn Hv. rewrite Hst1; [apply Hfiles; [by right|done]|]. by intros ->. }
    exists d'. split.
    { rewrite Hrun. unfold st1. by destruct (is_variant ent). }
    intros n. rewrite Hd'.
    destruct (decide (n = ent)) as [->|Hne].
    + rewrite (bool_decide_eq_false_2 (ent ∈ rest)) by done.
      rewrite (bool_decide_eq_true_2 (ent ∈ ent :: rest)) by left.
      cbn [andb]. unfold st1. destruct (is_variant ent); [|done].
      cbn [cwd set_cwd]. by rewrite lookup_delete_eq.
    + rewrite Hst1 by done.
      rewrite (bool_decide_ext (n ∈ ent :: rest) (n ∈ rest)); [done|].
      rewrite elem_of_cons. split; [by intros [?|?]|by right].
Qed.

(** When the alternate build-files are regular files they are removed,
    and nothing else is. *)
Lemma remove_dockerfile_variants_run st :
  (forall n nd, is_variant n = true -> cwd st !! n = Some nd -> exists data, nd = File data) ->
  exists d',
    remove_dockerfile_variants st = Ok tt (set_cwd d' st)
    /\ forall n, d' !! n = if is_variant n then None else cwd st !! n.
Proof.
  intros Hfiles.
  destruct (remove_variants_loop (map_to_list (cwd st)).*1 st) as (d' & Hrun & Hd').
  - apply NoDup_fst_map_to_list.
  - intros n Hn Hv. apply elem_of_listing in Hn as [nd Hnd].
    destruct (Hfiles n nd Hv Hnd) as [data ->]. by exists data.
  - exists d'. split; [exact Hrun|]. intros n. rewrite Hd'.
    destruct (is_variant n); [|by rewrite andb_false_r].
    rewrite andb_true_r. case_bool_decide as Hin; [done|].
    rewrite elem_of_listing in Hin. by apply eq_None_not_Some.
Qed.

Lemma source_path_run rt md sc p st :
  content_source (md_config md) = Some sc ->
  resolved_source rt sc = Some p ->
  is_Some (host_dirs rt p) ->
  source_path rt md st = Ok p st.
Proof.
  intros Hsc Hp [src Hsrc]. unfold source_path, resolved_source in *. rewrite Hsc.
  cbn [mbind option_bind] in *.
  destruct (alias sc) as [a|]; [|done]. cbn [mbind option_bind] in Hp.
  destruct (source_alias rt !! a) as [root|]; [|done].
  cbn [mbind option_bind] in Hp. injection Hp as Hp. rewrite Hp.
  unfold bind, assert_dir. by rewrite Hsrc.
Qed.

Lemma record_notification_run md b st :
  record_notification md b st
  = Ok tt (State (cwd st) (records st ++ notification md b)%list (oit_comments st)).
Proof.
  unfold record_notification, notification.
  destruct (owners (md_config md)) as [os|]; [destruct b|];
    cbn [when ret add_record]; try done;
    rewrite app_nil_r; by destruct st.
Qed.

Lemma detect_drift_run' st text :
  cwd st !! "Dockerfile" = Some (File text) ->
  detect_drift st = Ok (drift text (cwd st)) (set_cwd (drifted text (cwd st)) st).
Proof.
  intros Hdf. rewrite (detect_drift_run st text Hdf). unfold drift, drifted.
  destruct (snapshot (cwd st)) as [[old|]|]; try by rewrite set_cwd_id.
  destruct (String.eqb old text); [by rewrite set_cwd_id|done].
Qed.

Lemma lookup_drifted text d n : n <> ".oit" -> drifted text d !! n = d !! n.
Proof.
  intros Hn. unfold drifted. destruct (snapshot d) as [[old|]|]; try done.
  destruct (String.eqb old text); [done|]. by apply lookup_with_snapshot.
Qed.

Lemma prefix_cons_inv a p s :
  String.prefix (String a p) s = true ->
  exists s', s = String a s' /\ String.prefix p s' = true.
Proof.
  destruct s as [|c s]; [done|]. cbn [String.prefix].
  destruct (ascii_dec a c) as [<-|]; [|done]. by exists s.
Qed.

Lemma variant_not_protected n : is_variant n = true -> protected n = false.
Proof.
  unfold is_variant, Py.startswith. intros Hv.
  apply prefix_cons_inv in Hv as (s' & -> & _).
  unfold protected. apply orb_false_intro; [reflexivity|].
  apply bool_decide_eq_false_2. rewrite elem_of_cons.
  intros [?|Hnil]; [done|]. by apply not_elem_of_nil in Hnil.
Qed.

Lemma snapshot_ext d1 d2 : d1 !! ".oit" = d2 !! ".oit" -> snapshot d1 = snapshot d2.
Proof. unfold snapshot. by intros ->. Qed.

Lemma drifted_oit_ext text d1 d2 :
  d1 !! ".oit" = d2 !! ".oit" -> drifted text d1 !! ".oit" = drifted text d2 !! ".oit".
Proof.
  intros Heq. unfold drifted. rewrite (snapshot_ext d1 d2 Heq).
  destruct (snapshot d2) as [[old|]|]; try done.
  destruct (String.eqb old text); [done|]. unfold with_snapshot. rewrite Heq.
  destruct (d2 !! ".oit") as [[data|o]|] eqn:E; [by rewrite Heq, E| |by rewrite Heq, E].
  by rewrite !lookup_insert_eq.
Qed.

Lemma drifted_oit_dir text d o :
  d !! ".oit" = Some (Dir o) -> exists o', drifted text d !! ".oit" = Some (Dir o').
Proof.
  intros Ho. unfold drifted. destruct (snapshot d) as [[old|]|]; try by exists o.
  destruct (String.eqb old text); [by exists o|]. unfold with_snapshot. rewrite Ho.
  eexists. apply lookup_insert_eq.
Qed.

(** After a run in which the detector found a snapshot file, or stored
    one, the snapshot holds the merged build-file. *)
Lemma snapshot_drifted text d old :
  snapshot d = Some (File old) -> snapshot (drifted text d) = Some (File text).
Proof.
  intros Hsnap. unfold drifted. rewrite Hsnap.
  destruct (String.eqb old text) eqn:E.
  - apply String.eqb_eq in E as <-. exact Hsnap.
  - destruct (snapshot_Some _ _ Hsnap) as (o & Ho & _).
    by eapply snapshot_with_snapshot.
Qed.

(** The merge, for a source tree that has the build-file under its
    default name and alternate build-files, if any, as regular files. *)
Lemma _merge_source_run rt md sc p src text st :
  content_source (md_config md) = Some sc ->
  (dockerfile sc = None \/ dockerfile sc = Some "Dockerfile") ->
  resolved_source rt sc = Some p ->
  host_dirs rt p = Some src ->
  src !! "Dockerfile" = Some (File text) ->
  (forall n s, is_variant n = true -> src !! n = Some s -> exists data, s = File data) ->
  exists d',
    _merge_source rt md st
    = Ok tt (State d'
               (records st ++ notification md (drift text (merge_dir src (cwd st))))%list
               (oit_comments st ++ merge_comments)%list)
    /\ d' !! "Dockerfile" = Some (File text)
    /\ d' !! ".oit" = drifted text (merge_dir src (cwd st)) !! ".oit".
Proof.
  intros Hsc Hname Hp Hsrc Hdf Hvar. unfold _merge_source.
  destruct (pre_clean_run st) as (dp & Hclean & Hdp).
  rewrite (bind_ok _ _ _ _ _ Hclean).
  erewrite bind_ok by (eapply source_path_run; eauto).
  erewrite bind_ok by (unfold recursive_overwrite; rewrite Hsrc; reflexivity).
  cbn [cwd set_cwd]. set (dm := merge_dir src dp).
  assert (Hrename : forall s, rename_dockerfile md s = Ok tt s).
  { intros s. unfold rename_dockerfile. rewrite Hsc. cbn [mbind option_bind].
    by destruct Hname as [-> | ->]. }
  rewrite (bind_ok _ _ _ _ _ (Hrename _)).
  assert (Hdm : forall n, protected n = false ->
            dm !! n = (fun s => overwrite s None) <$> src !! n).
  { intros n Hn. unfold dm. rewrite lookup_merge_dir, Hdp, Hn.
    by destruct (src !! n). }
  destruct (remove_dockerfile_variants_run (set_cwd dm (set_cwd dp st)))
    as (dv & Hvariants & Hdv).
  { intros n nd Hv. cbn [cwd set_cwd]. rewrite Hdm by by apply variant_not_protected.
    destruct (src !! n) as [s|] eqn:Hs; [|done].
    destruct (Hvar n s Hv Hs) as [data ->]. intros [= <-]. by exists data. }
  rewrite (bind_ok _ _ _ _ _ Hvariants). cbn [cwd set_cwd] in *.
  assert (Hdvdf : dv !! "Dockerfile" = Some (File text)).
  { rewrite Hdv. change (is_variant "Dockerfile") with false. cbn match.
    rewrite Hdm by done. by rewrite Hdf. }
  erewrite bind_ok by (apply detect_drift_run'; cbn [cwd set_cwd]; exact Hdvdf).
  cbn [cwd set_cwd].
  assert (Hoit : dv !! ".oit" = merge_dir src (cwd st) !! ".oit").
  { rewrite Hdv. change (is_variant ".oit") with false. cbn match.
    unfold dm. rewrite !lookup_merge_dir, Hdp. done. }
  assert (Hdrift : drift text dv = drift text (merge_dir src (cwd st)))
    by (unfold drift; by rewrite (snapshot_ext dv (merge_dir src (cwd st)) Hoit)).
  rewrite Hdrift.
  erewrite bind_ok by apply record_notification_run.
  eexists. split; [reflexivity|]. cbn [cwd set_cwd]. split.
  - by rewrite lookup_drifted.
  - by apply drifted_oit_ext.
Qed.

Lemma update_distgit_dir_merged rt md acc version release sc p src text text' st :
  content_source (md_config md) = Some sc ->
  (dockerfile sc = None \/ dockerfile sc = Some "Dockerfile") ->
  resolved_source rt sc = Some p ->
  host_dirs rt p = Some src ->
  src !! "Dockerfile" = Some (File text) ->
  (forall n s, is_variant n = true -> src !! n = Some s -> exists data, s = File data) ->
  (forall data, cwd st !! ".oit" <> Some (File data)) ->
  apply_modifications (configured_rules sc) text = inr text' ->
  exists st',
    update_distgit_dir rt md acc version release st = Ok tt st'
    /\ cwd st' !! "Dockerfile"
       = Some (File (final_text rt md acc version release
                       (base_comments ++ merge_comments)%list text'))
    /\ cwd st' !! ".oit"
       = drifted text (merge_dir src (ensure_oit (cwd st))) !! ".oit"
    /\ records st'
       = (records st
          ++ notification md (drift text (merge_dir src (ensure_oit (cwd st)))))%list
    /\ oit_comments st' = (base_comments ++ merge_comments)%list.
Proof.
  intros Hsc Hname Hp Hsrc Hdf Hvar Hoit Hmods.
  unfold update_distgit_dir. rewrite Hsc.
  erewrite bind_ok by reflexivity.
  rewrite (make_oit_dir_run (fun _ => _)) by done.
  cbn [cwd records oit_comments set_cwd].
  destruct (_merge_source_run rt md sc p src text
              (State (ensure_oit (cwd st)) (records st) base_comments)
              Hsc Hname Hp Hsrc Hdf Hvar) as (d' & Hmerge & Hd'df & Hd'oit).
  rewrite (bind_ok _ _ _ _ _ Hmerge). cbn [cwd records oit_comments] in *.
  erewrite (assert_file_ok (fun _ => _)) by (cbn [cwd]; exact Hd'df).
  cbn [mbind option_bind]. unfold configured_rules in Hmods.
  destruct (modifications sc) as [ms|]; simpl in Hmods.
  - erewrite bind_ok; cycle 1.
    { erewrite _run_modifications_run by (cbn [cwd]; exact Hd'df).
      rewrite Hmods. reflexivity. }
    erewrite finalize_run by (cbn [cwd set_cwd]; apply lookup_insert_eq).
    eexists. split; [reflexivity|]. cbn [cwd records oit_comments set_cwd].
    split; [by rewrite lookup_insert_eq|].
    split; [by rewrite !lookup_insert_ne|done].
  - injection Hmods as <-.
    erewrite bind_ok by reflexivity.
    erewrite finalize_run by (cbn [cwd]; exact Hd'df).
    eexists. split; [reflexivity|]. cbn [cwd records oit_comments set_cwd].
    split; [by rewrite lookup_insert_eq|].
    split; [by rewrite lookup_insert_ne|done].
Qed.

(** For an image merged from an upstream tree that is reconciled without
    error, a second run with nothing changed writes the build-file the
    first run wrote, and adds no owner notification if the snapshot it
    finds holds the merged build-file; which is so whenever the first run
    found a snapshot file.  The source tree is taken not to carry a [.oit]
    entry of its own. *)
Theorem merged_reconciliation_idempotent
    rt md acc version release sc p src text text' st :
  content_source (md_config md) = Some sc ->
  (dockerfile sc = None \/ dockerfile sc = Some "Dockerfile") ->
  resolved_source rt sc = Some p ->
  host_dirs rt p = Some src ->
  src !! "Dockerfile" = Some (File text) ->
  src !! ".oit" = None ->
  (forall n s, is_variant n = true -> src !! n = Some s -> exists data, s = File data) ->
  (forall data, cwd st !! ".oit" <> Some (File data)) ->
  apply_modifications (configured_rules sc) text = inr text' ->
  exists st1 st2 out,
    update_distgit_dir rt md acc version release st = Ok tt st1
    /\ update_distgit_dir rt md acc version release st1 = Ok tt st2
    /\ cwd st1 !! "Dockerfile" = Some (File out)
    /\ cwd st2 !! "Dockerfile" = Some (File out)
    /\ (snapshot (cwd st1) = Some (File text) -> records st2 = records st1)
    /\ (forall old, snapshot (cwd st) = Some (File old) ->
                    snapshot (cwd st1) = Some (File text)).
Proof.
  intros Hsc Hname Hp Hsrc Hdf Hsrcoit Hvar Hoit Hmods.
  destruct (update_distgit_dir_merged rt md acc version release sc p src text text' st)
    as (st1 & Hrun1 & Hout1 & Hoit1 & Hrec1 & _); [done..|].
  assert (Hmerged : forall d, merge_dir src d !! ".oit" = d !! ".oit")
    by (intros d; by rewrite lookup_merge_dir, Hsrcoit).
  destruct (ensure_oit_dir (cwd st) Hoit) as [o Ho].
  assert (Hoit1' : exists o1, cwd st1 !! ".oit" = Some (Dir o1)).
  { rewrite Hoit1. eapply drifted_oit_dir. by rewrite Hmerged. }
  destruct Hoit1' as [o1 Ho1].
  destruct (update_distgit_dir_merged rt md acc version release sc p src text text' st1)
    as (st2 & Hrun2 & Hout2 & _ & Hrec2 & _); [done..|by rewrite Ho1|done|].
  eexists st1, st2, _. split; [done|]. split; [done|]. split; [done|]. split; [done|]. split.
  - intros Hsnap. rewrite Hrec2. unfold drift.
    rewrite (snapshot_ext _ (cwd st1)); cycle 1.
    { rewrite Hmerged. unfold ensure_oit. by rewrite Ho1. }
    rewrite Hsnap, String.eqb_refl. cbn [negb]. unfold notification.
    destruct (owners (md_config md)); by rewrite app_nil_r.
  - intros old Hsnap.
    rewrite (snapshot_ext _ (drifted text (merge_dir src (ensure_oit (cwd st))))) by done.
    apply (snapshot_drifted _ _ old).
    rewrite (snapshot_ext _ (cwd st)); [done|].
    rewrite Hmerged. unfold ensure_oit.
    destruct (snapshot_Some _ _ Hsnap) as (o0 & Ho0 & _). by rewrite Ho0.
Qed.

Lemma plain_upstream_variants n s :
  is_variant n = true -> plain_upstream !! n = Some s -> exists data, s = File data.
Proof.
  intros _ Hs. unfold plain_upstream in Hs.
  repeat (apply lookup_insert_Some in Hs as [[_ <-]|[_ Hs]]; [by eexists|]).
  by rewrite lookup_empty in Hs.
Qed.

(** The scenario of the spec, run twice: one notification, for the stale
    snapshot found by the first run, and twice the same build-file. *)
Example merged_reconciliation_example :
  exists st1 st2 out,
    update_distgit_dir merged_runtime foo_metadata toy_accessor "1.2" "3"
      (State foo_checkout [] []) = Ok tt st1
    /\ update_distgit_dir merged_runtime foo_metadata toy_accessor "1.2" "3" st1
       = Ok tt st2
    /\ cwd st1 !! "Dockerfile" = Some (File out)
    /\ cwd st2 !! "Dockerfile" = Some (File out)
    /\ records st2 = records st1.
Proof.
  destruct (merged_reconciliation_idempotent merged_runtime foo_metadata toy_accessor
              "1.2" "3" (SourceConfig (Some "A") None None None) "/src" plain_upstream
              ("FROM centos:7" +:+ NL) ("FROM centos:7" +:+ NL)
              (State foo_checkout [] []))
    as (st1 & st2 & out & Hrun1 & Hrun2 & Hout1 & Hout2 & Hrec & Hsnap).
  - reflexivity.
  - by left.
  - vm_compute. reflexivity.
  - reflexivity.
  - vm_compute. reflexivity.
  - vm_compute. reflexivity.
  - apply plain_upstream_variants.
  - intros data. vm_compute. discriminate.
  - reflexivity.
  - exists st1, st2, out. split; [exact Hrun1|]. split; [exact Hrun2|].
    split; [exact Hout1|]. split; [exact Hout2|].
    apply Hrec, (Hsnap "FROM centos:6"). vm_compute. reflexivity.
Qed.

Example merged_build_file_example :
  exists st1,
    update_distgit_dir merged_runtime foo_metadata toy_accessor "1.2" "3"
      (State foo_checkout [] []) = Ok tt st1
    /\ cwd st1 !! "Dockerfile"
       = Some (File (oit_header (base_comments ++ merge_comments)%list
                     +:+ "FROM base:latest" +:+ NL
                     +:+ "LABEL com.redhat.component=foo" +:+ NL
                     +:+ "LABEL name=foo" +:+ NL
                     +:+ "LABEL version=1.2" +:+ NL
                     +:+ "LABEL release-type=stable" +:+ NL
                     +:+ "LABEL release=3"))
    /\ cwd st1 !! "old.txt" = None
    /\ cwd st1 !! "Dockerfile.centos" = None
    /\ cwd st1 !! "main.go" = Some (File "package main")
    /\ snapshot (cwd st1) = Some (File ("FROM centos:7" +:+ NL))
    /\ records st1
       = [Record_ "dockerfile_notify"
            [("distgit", "foo"); ("dockerfile", "/distgits/foo/Dockerfile");
             ("owners", "alice, bob")]].
Proof.
  eexists. split; [vm_compute; reflexivity|]. by vm_compute.
Qed.

(** * Further properties *)

(** ** Frames of the file operations *)

Lemma bind_Ok_inv {A B} (m : M A) (k : A -> M B) st b st' :
  bind m k st = Ok b st' -> exists a st1, m st = Ok a st1 /\ k a st1 = Ok b st'.
Proof.
  unfold bind. destruct (m st) as [a st1|e st1]; [|done]. intros H. by exists a, st1.
Qed.

Lemma keeps_Ok {A} R (m : M A) st a st' : keeps R m -> m st = Ok a st' -> R st st'.
Proof. intros Hk Hm. specialize (Hk st). by rewrite Hm in Hk. Qed.

Lemma keeps_Raise {A} R (m : M A) st e st' :
  keeps R m -> m st = Raise e st' -> R st st'.
Proof. intros Hk Hm. specialize (Hk st). by rewrite Hm in Hk. Qed.

Lemma keeps_ret {A} R `{!Reflexive R} (a : A) : keeps R (ret a).
Proof. intros st. simpl. reflexivity. Qed.

Lemma keeps_raise {A} R `{!Reflexive R} e : keeps R (@raise A e).
Proof. intros st. simpl. reflexivity. Qed.

Lemma keeps_bind {A B} R `{!Transitive R} (m : M A) (k : A -> M B) :
  keeps R m -> (forall a, keeps R (k a)) -> keeps R (bind m k).
Proof.
  intros Hm Hk st. unfold bind. specialize (Hm st).
  destruct (m st) as [a st1|e st1]; [|done].
  specialize (Hk a st1). destruct (k a st1); by etrans.
Qed.

Lemma keeps_for_each {A} R `{!Reflexive R} `{!Transitive R}
    (items : list A) (body : A -> M unit) :
  (forall x, keeps R (body x)) -> keeps R (for_each items body).
Proof.
  intros Hbody. induction items as [|x items IH]; [by apply keeps_ret|].
  cbn [for_each]. by apply keeps_bind.
Qed.

Lemma keeps_when R `{!Reflexive R} b (m : M unit) : keeps R m -> keeps R (when b m).
Proof. destruct b; [done|]. intros _. by apply keeps_ret. Qed.

#[global] Instance same_log_refl : Reflexive same_log.
Proof. by intros st. Qed.

#[global] Instance same_log_trans : Transitive same_log.
Proof. intros st1 st2 st3 [H1 H2] [H3 H4]. split; congruence. Qed.

#[global] Instance shrinks_refl : Reflexive shrinks.
Proof. intros st n. by left. Qed.

#[global] Instance shrinks_trans : Transitive shrinks.
Proof.
  intros st1 st2 st3 H12 H23 n.
  destruct (H23 n) as [-> | ->]; [apply H12|by right].
Qed.

Lemma same_log_set_cwd d st : same_log st (set_cwd d st).
Proof. done. Qed.

Lemma keeps_store p v e : keeps same_log (store p v e).
Proof.
  intros st. unfold store. by destruct (put_at p v (Dir (cwd st))) as [[data|d]|].
Qed.

Lemma keeps_isfile p : keeps same_log (isfile p).
Proof. by intros st. Qed.

Lemma keeps_isdir p : keeps same_log (isdir p).
Proof. by intros st. Qed.

Lemma keeps_listdir : keeps same_log listdir.
Proof. by intros st. Qed.

Lemma keeps_os_remove p : keeps same_log (os_remove p).
Proof.
  intros st. unfold os_remove.
  destruct (lookup_path p st) as [[data|d]|]; [apply keeps_store|done..].
Qed.

Lemma keeps_shutil_rmtree p : keeps same_log (shutil_rmtree p).
Proof.
  intros st. unfold shutil_rmtree.
  destruct (lookup_path p st) as [[data|d]|]; [done|apply keeps_store|done].
Qed.

Lemma keeps_os_mkdir p : keeps same_log (os_mkdir p).
Proof.
  intros st. unfold os_mkdir.
  destruct (lookup_path p st) as [nd|]; [done|apply keeps_store].
Qed.

Lemma keeps_os_rename src dst : keeps same_log (os_rename src dst).
Proof.
  intros st. unfold os_rename.
  destruct (lookup_path src st) as [s|]; [|done].
  destruct (bool_decide (src = dst)); [done|].
  destruct (match s, lookup_path dst st with
            | _, None => true
            | File _, Some (File _) => true
            | Dir _, Some (Dir es) => bool_decide (es = ∅)
            | _, _ => false
            end); [|done].
  destruct (put_at src None (Dir (cwd st))) as [moved|]; [|done].
  by destruct (put_at dst (Some s) moved) as [[data|d]|].
Qed.

Lemma keeps_read_file p : keeps same_log (read_file p).
Proof.
  intros st. unfold read_file. by destruct (lookup_path p st) as [[data|d]|].
Qed.

Lemma keeps_write_file p data : keeps same_log (write_file p data).
Proof.
  intros st. unfold write_file.
  destruct (lookup_path p st) as [[old|d]|]; [apply keeps_store|done|apply keeps_store].
Qed.

Lemma keeps_filecmp_cmp a b : keeps same_log (filecmp_cmp a b).
Proof.
  intros st. unfold filecmp_cmp.
  by destruct (lookup_path a st) as [[x|dx]|], (lookup_path b st) as [[y|dy]|].
Qed.

Lemma keeps_shutil_copy src dst : keeps same_log (shutil_copy src dst).
Proof.
  intros st. unfold shutil_copy.
  destruct (lookup_path src st) as [[data|]|]; [|done..].
  destruct (lookup_path dst st) as [[|]|]; apply keeps_write_file.
Qed.

Lemma keeps_assert_file p : keeps same_log (assert_file p).
Proof.
  apply keeps_bind; [apply _|apply keeps_isfile|].
  intros []; [by apply keeps_ret|by apply keeps_raise].
Qed.

Lemma keeps_lift {A} (r : exn + A) : keeps same_log (lift r).
Proof. destruct r; [by apply keeps_raise|by apply keeps_ret]. Qed.

Create HintDb keeps.
#[global] Hint Resolve keeps_isfile keeps_isdir keeps_listdir keeps_os_remove
  keeps_shutil_rmtree keeps_os_mkdir keeps_os_rename keeps_read_file
  keeps_write_file keeps_filecmp_cmp keeps_shutil_copy keeps_assert_file
  keeps_lift : keeps.

Ltac keeps_log :=
  repeat first
    [ progress intros
    | apply keeps_bind; [apply _| |]
    | apply keeps_for_each; [apply _|apply _|]
    | apply keeps_when; [apply _|]
    | apply keeps_ret; apply _
    | apply keeps_raise; apply _
    | solve [auto with keeps]
    | case_match ].

Lemma keeps_weaken {A} (R R' : state -> state -> Prop) (m : M A) :
  (forall st st', R st st' -> R' st st') -> keeps R m -> keeps R' m.
Proof. intros HR Hm st. specialize (Hm st). destruct (m st); by apply HR. Qed.

Lemma keeps_seq {A B} (R1 R2 R3 : state -> state -> Prop) (m : M A) (k : A -> M B) :
  (forall x y, R1 x y -> R3 x y) ->
  (forall x y z, R1 x y -> R2 y z -> R3 x z) ->
  keeps R1 m -> (forall a, keeps R2 (k a)) -> keeps R3 (bind m k).
Proof.
  intros H13 H123 Hm Hk st. unfold bind. specialize (Hm st).
  destruct (m st) as [a st1|e st1]; [|by apply H13].
  specialize (Hk a st1). destruct (k a st1); by eapply H123.
Qed.

(** ** Frames of the methods *)

Lemma keeps_pre_clean : keeps same_log pre_clean.
Proof. unfold pre_clean, pre_clean_entry. keeps_log. Qed.

Lemma keeps_source_path rt md : keeps same_log (source_path rt md).
Proof. unfold source_path, assert_dir. keeps_log. Qed.

Lemma keeps_recursive_overwrite rt src : keeps same_log (recursive_overwrite rt src).
Proof. intros st. unfold recursive_overwrite. by destruct (host_dirs rt src). Qed.

Lemma keeps_rename_dockerfile md : keeps same_log (rename_dockerfile md).
Proof. unfold rename_dockerfile. keeps_log. Qed.

Lemma keeps_remove_dockerfile_variants : keeps same_log remove_dockerfile_variants.
Proof. unfold remove_dockerfile_variants. keeps_log. Qed.

Lemma keeps_detect_drift : keeps same_log detect_drift.
Proof. unfold detect_drift. keeps_log. Qed.

Lemma keeps__run_modifications ms : keeps same_log (_run_modifications ms).
Proof. unfold _run_modifications. keeps_log. Qed.

Lemma keeps_open_dockerfile acc : keeps same_log (open_dockerfile acc).
Proof. unfold open_dockerfile. keeps_log. Qed.

#[global] Hint Resolve keeps_pre_clean keeps_source_path keeps_recursive_overwrite
  keeps_rename_dockerfile keeps_remove_dockerfile_variants keeps_detect_drift
  keeps__run_modifications keeps_open_dockerfile : keeps.

#[global] Instance same_records_refl : Reflexive same_records.
Proof. by intros st. Qed.

#[global] Instance same_records_trans : Transitive same_records.
Proof. intros st1 st2 st3 H1 H2. unfold same_records in *. congruence. Qed.

Lemma keeps_same_records {A} (m : M A) : keeps same_log m -> keeps same_records m.
Proof. apply keeps_weaken. by intros st st' [H _]. Qed.

Lemma notification_false md : notification md false = [].
Proof. unfold notification. by destruct (owners (md_config md)). Qed.

Lemma same_records_notified md st st' : same_records st st' -> notified md st st'.
Proof.
  intros H. exists false. by rewrite notification_false, app_nil_r.
Qed.

Lemma same_then_notified md x y z :
  same_records x y -> notified md y z -> notified md x z.
Proof. intros Hxy [b Hb]. exists b. by rewrite Hb, Hxy. Qed.

Lemma notified_then_same md x y z :
  notified md x y -> same_records y z -> notified md x z.
Proof. intros [b Hb] Hyz. exists b. by rewrite Hyz, Hb. Qed.

Lemma keeps_record_notification md b : keeps (notified md) (record_notification md b).
Proof. intros st. rewrite record_notification_run. by exists b. Qed.

Lemma keeps_set_oit_comments lines : keeps same_records (set_oit_comments lines).
Proof. by intros st. Qed.

Lemma keeps_extend_oit_comments lines : keeps same_records (extend_oit_comments lines).
Proof. by intros st. Qed.

Lemma keeps_get_oit_comments : keeps same_log get_oit_comments.
Proof. by intros st. Qed.

(** Everything in [update_distgit_dir] from the existence check on. *)
Lemma keeps_finish rt md acc version release :
  keeps same_log
    (assert_file ["Dockerfile"] ;;;
     (match content_source (md_config md) ≫= modifications with
      | Some ms => _run_modifications ms
      | None => ret tt
      end) ;;;
     dfp <- open_dockerfile acc ;;
     let dfp := rewrite_metadata rt md version release dfp in
     let df_content := strip_oit_comments (render acc dfp) in
     comments <- get_oit_comments ;;
     write_file ["Dockerfile"] (with_oit_comments comments df_content)).
Proof.
  apply keeps_bind; [apply _|auto with keeps|intros _].
  apply keeps_bind; [apply _| |intros _].
  { destruct (content_source (md_config md) ≫= modifications);
      [auto with keeps|by apply keeps_ret]. }
  apply keeps_bind; [apply _|auto with keeps|intros dfp]. cbv zeta.
  apply keeps_bind; [apply _|apply keeps_get_oit_comments|intros comments].
  auto with keeps.
Qed.

Lemma keeps__merge_source rt md : keeps (notified md) (_merge_source rt md).
Proof.
  unfold _merge_source.
  repeat (apply (keeps_seq same_records (notified md) (notified md));
          [apply same_records_notified | apply same_then_notified
          | apply keeps_same_records; solve [auto with keeps] | intros ?]).
  apply (keeps_seq (notified md) same_records (notified md));
    [done | apply notified_then_same | apply keeps_record_notification | intros _].
  apply keeps_extend_oit_comments.
Qed.

Lemma keeps_update_distgit_dir rt md acc version release :
  keeps (notified md) (update_distgit_dir rt md acc version release).
Proof.
  unfold update_distgit_dir.
  apply (keeps_seq same_records (notified md) (notified md));
    [apply same_records_notified | apply same_then_notified
    | apply keeps_set_oit_comments | intros _].
  apply (keeps_seq same_records (notified md) (notified md));
    [apply same_records_notified | apply same_then_notified
    | apply keeps_same_records; auto with keeps | intros has_oit].
  apply (keeps_seq same_records (notified md) (notified md));
    [apply same_records_notified | apply same_then_notified
    | apply keeps_same_records, keeps_when; [apply _|auto with keeps] | intros _].
  apply (keeps_seq (notified md) same_records (notified md));
    [done | apply notified_then_same | | intros _].
  - destruct (content_source (md_config md)); [apply keeps__merge_source|].
    eapply keeps_weaken; [apply same_records_notified|apply keeps_extend_oit_comments].
  - apply keeps_same_records, keeps_finish.
Qed.

(** X1.  A reconciliation, whether it returns or raises, adds to the
    record log at most one record, the [dockerfile_notify] record of the
    image with its owners; it adds none for an image without upstream
    source and none for an image without owners. *)
Theorem X1_at_most_one_notification rt md acc version release st :
  let st' := match update_distgit_dir rt md acc version release st with
             | Ok _ st' => st'
             | Raise _ st' => st'
             end in
  (exists notify_owner : bool,
     records st' = (records st ++ notification md notify_owner)%list)
  /\ (content_source (md_config md) = None -> records st' = records st)
  /\ (owners (md_config md) = None -> records st' = records st).
Proof.
  cbv zeta. pose proof (keeps_update_distgit_dir rt md acc version release st) as Hk.
  split; [by destruct (update_distgit_dir rt md acc version release st)|]. split.
  - intros Hsrc. clear Hk.
    assert (Hk : keeps same_records (update_distgit_dir rt md acc version release)).
    { unfold update_distgit_dir. rewrite Hsrc.
      apply keeps_bind; [apply _|apply keeps_set_oit_comments|intros _].
      apply keeps_bind; [apply _|apply keeps_same_records; auto with keeps|intros has_oit].
      apply keeps_bind;
        [apply _|apply keeps_same_records, keeps_when; [apply _|auto with keeps]|intros _].
      apply keeps_bind; [apply _|apply keeps_extend_oit_comments|intros _].
      pose proof (keeps_finish rt md acc version release) as Hfin.
      rewrite Hsrc in Hfin. by apply keeps_same_records. }
    specialize (Hk st). by destruct (update_distgit_dir rt md acc version release st).
  - intros Hown.
    assert (Hnone : forall b, notification md b = [])
      by (intros b; unfold notification; by rewrite Hown).
    destruct (update_distgit_dir rt md acc version release st);
      destruct Hk as [b Hb]; by rewrite Hb, Hnone, app_nil_r.
Qed.

Lemma X1_at_most_one_notification_witness :
  records (match update_distgit_dir example_runtime plain_metadata toy_accessor "1.2" "3"
                  (State plain_checkout [] []) with
           | Ok _ st' => st'
           | Raise _ st' => st'
           end) = [].
Proof.
  destruct (X1_at_most_one_notification example_runtime plain_metadata toy_accessor
              "1.2" "3" (State plain_checkout [] [])) as (_ & Hplain & _).
  apply Hplain. reflexivity.
Defined.

Ltac inv_bind H :=
  let a := fresh "a" in
  let st := fresh "st" in
  let Hm := fresh "Hm" in
  apply bind_Ok_inv in H as (a & st & Hm & H).

Lemma _merge_source_comments rt md st st' :
  _merge_source rt md st = Ok tt st' ->
  oit_comments st' = (oit_comments st ++ merge_comments)%list.
Proof.
  unfold _merge_source. intros H.
  inv_bind H. apply (keeps_Ok same_log) in Hm as [_ Hc0]; [|auto with keeps].
  inv_bind H. apply (keeps_Ok same_log) in Hm as [_ Hc1]; [|auto with keeps].
  inv_bind H. apply (keeps_Ok same_log) in Hm as [_ Hc2]; [|auto with keeps].
  inv_bind H. apply (keeps_Ok same_log) in Hm as [_ Hc3]; [|auto with keeps].
  inv_bind H. apply (keeps_Ok same_log) in Hm as [_ Hc4]; [|auto with keeps].
  inv_bind H. apply (keeps_Ok same_log) in Hm as [_ Hc5]; [|auto with keeps].
  inv_bind H. rewrite record_notification_run in Hm. injection Hm as _ <-.
  injection H as <-. cbn [oit_comments]. congruence.
Qed.

(** X2.  The comment block does not pile up from run to run: whatever
    [self.oit_comments] held before, after a reconciliation that returns it
    is the three attribution lines followed by the four lines of the merge,
    or, for an image without upstream source, by the four lines that say
    the file is partly managed. *)
Theorem X2_comment_block_is_reset rt md acc version release st st' :
  update_distgit_dir rt md acc version release st = Ok tt st' ->
  oit_comments st' = final_comments md.
Proof.
  unfold update_distgit_dir, final_comments. intros H.
  inv_bind H. injection Hm as _ <-.
  inv_bind H. apply (keeps_Ok same_log) in Hm as [_ Hc1]; [|auto with keeps].
  inv_bind H. apply (keeps_Ok same_log) in Hm as [_ Hc2];
    [|apply keeps_when; [apply _|auto with keeps]].
  apply bind_Ok_inv in H as (a3 & st3 & Hm & H).
  apply (keeps_Ok same_log) in H as [_ Hc4]; [|apply keeps_finish].
  rewrite Hc4. cbn [oit_comments] in Hc1.
  destruct (content_source (md_config md)).
  - destruct a3. apply _merge_source_comments in Hm. congruence.
  - injection Hm as _ <-. cbn [oit_comments]. congruence.
Qed.

Lemma X2_comment_block_is_reset_witness :
  exists st',
    update_distgit_dir example_runtime plain_metadata toy_accessor "1.2" "3"
      (State plain_checkout [] ["left over"; "from before"]) = Ok tt st'
    /\ oit_comments st' = (base_comments ++ unmanaged_comments)%list.
Proof.
  eexists. split; [vm_compute; reflexivity|].
  eapply (X2_comment_block_is_reset example_runtime plain_metadata toy_accessor
            "1.2" "3" (State plain_checkout [] ["left over"; "from before"])).
  vm_compute. reflexivity.
Defined.

(** ** A build-file under another name *)

Lemma bind_raises {A B} (m : M A) (k : A -> M B) st :
  (forall a st1, m st = Ok a st1 -> exists e st', k a st1 = Raise e st') ->
  exists e st', bind m k st = Raise e st'.
Proof.
  intros Hk. unfold bind. destruct (m st) as [a st1|e st1]; [by apply Hk|by eexists _, _].
Qed.

Lemma keeps_shrinks_os_remove n : keeps shrinks (os_remove [n]).
Proof.
  intros st. unfold os_remove. rewrite lookup_path_top.
  destruct (cwd st !! n) as [[data|d]|]; [|reflexivity..].
  rewrite store_top. intros n'. cbn [cwd set_cwd].
  destruct (decide (n' = n)) as [->|Hne];
    [right; apply lookup_delete_eq|left; by apply lookup_delete_ne].
Qed.

Lemma keeps_shrinks_remove_dockerfile_variants : keeps shrinks remove_dockerfile_variants.
Proof.
  unfold remove_dockerfile_variants.
  apply keeps_bind; [apply _|intros st; unfold listdir; reflexivity|intros ents].
  apply keeps_for_each; [apply _|apply _|intros ent].
  apply keeps_when; [apply _|apply keeps_shrinks_os_remove].
Qed.

(** Without a regular file [Dockerfile] the detector changes nothing
    before it returns. *)
Lemma detect_drift_no_build_file st b st' :
  (forall data, cwd st !! "Dockerfile" <> Some (File data)) ->
  detect_drift st = Ok b st' -> st' = st.
Proof.
  intros Hno. unfold detect_drift, bind at 1, isfile. rewrite lookup_snapshot.
  destruct (snapshot (cwd st)) as [[old|]|] eqn:Hsnap; try by intros [= _ <-].
  unfold bind at 1, filecmp_cmp. rewrite lookup_snapshot, Hsnap, lookup_path_top.
  destruct (cwd st !! "Dockerfile") as [[data|d]|] eqn:Hdf; [by destruct (Hno data)| |done].
  cbn [negb]. unfold bind at 1, os_remove. rewrite lookup_snapshot, Hsnap.
  destruct (snapshot_Some _ _ Hsnap) as (o & Ho & _).
  rewrite (store_snapshot _ _ _ o Ho).
  unfold bind at 1, shutil_copy. rewrite lookup_path_top. cbn [cwd set_cwd].
  by rewrite lookup_insert_ne, Hdf.
Qed.

Lemma _merge_source_loses_dockerfile rt md sc dockerfile_name st st' :
  content_source (md_config md) = Some sc ->
  dockerfile sc = Some dockerfile_name ->
  dockerfile_name <> "Dockerfile" ->
  _merge_source rt md st = Ok tt st' ->
  forall data, cwd st' !! "Dockerfile" <> Some (File data).
Proof.
  intros Hsc Hdf Hname. unfold _merge_source. intros H.
  inv_bind H. clear Hm. inv_bind H. clear Hm. inv_bind H. clear Hm.
  inv_bind H. destruct a2.
  pose proof (rename_dockerfile_loses_dockerfile md _ _ dockerfile_name
                ltac:(by rewrite Hsc) Hname Hm) as Hnone. clear Hm.
  inv_bind H. apply (keeps_Ok shrinks) in Hm; [|apply keeps_shrinks_remove_dockerfile_variants].
  assert (Hnone' : forall data, cwd st4 !! "Dockerfile" <> Some (File data)).
  { intros data. destruct (Hm "Dockerfile") as [-> | ->]; [apply Hnone|done]. }
  inv_bind H. apply detect_drift_no_build_file in Hm0 as ->; [|done].
  inv_bind H. rewrite record_notification_run in Hm0. injection Hm0 as _ <-.
  injection H as <-. exact Hnone'.
Qed.

(** X3.  An image whose configuration names a build-file other than
    [Dockerfile] is never reconciled: whatever the checkout, the source
    tree and the runtime, [update_distgit_dir] raises. *)
Theorem X3_other_build_file_name_never_reconciles
    rt md acc version release sc dockerfile_name st :
  content_source (md_config md) = Some sc ->
  dockerfile sc = Some dockerfile_name ->
  dockerfile_name <> "Dockerfile" ->
  exists e st', update_distgit_dir rt md acc version release st = Raise e st'.
Proof.
  intros Hsc Hdf Hname. unfold update_distgit_dir. rewrite Hsc.
  apply bind_raises. intros _ st0 _.
  apply bind_raises. intros has_oit st1 _.
  apply bind_raises. intros _ st2 _.
  apply bind_raises. intros [] st3 Hmerge.
  eexists _, _. apply (assert_file_raise (fun _ => _)).
  by eapply _merge_source_loses_dockerfile.
Qed.

Lemma X3_other_build_file_name_never_reconciles_witness :
  exists e st',
    update_distgit_dir example_runtime rhel7_metadata toy_accessor "1.2" "3"
      (State example_checkout [] []) = Raise e st'.
Proof.
  apply (X3_other_build_file_name_never_reconciles example_runtime rhel7_metadata
           toy_accessor "1.2" "3"
           (SourceConfig (Some "A") None (Some "Dockerfile.rhel7") None)
           "Dockerfile.rhel7").
  - reflexivity.
  - reflexivity.
  - discriminate.
Defined.

(** ** What decides the reconciliation of an image without source *)

Lemma update_distgit_dir_oit_is_file rt md acc version release st data :
  cwd st !! ".oit" = Some (File data) ->
  update_distgit_dir rt md acc version release st
  = Raise (OSError [".oit"]) (State (cwd st) (records st) base_comments).
Proof.
  intros Hoit. unfold update_distgit_dir.
  erewrite bind_ok by reflexivity.
  unfold bind at 1, isdir. rewrite lookup_path_top. cbn [cwd]. rewrite Hoit.
  cbn [negb when]. apply bind_raise. unfold os_mkdir.
  by rewrite lookup_path_top; cbn [cwd]; rewrite Hoit.
Qed.

Lemma update_distgit_dir_unmanaged_no_dockerfile rt md acc version release st :
  content_source (md_config md) = None ->
  (forall data, cwd st !! ".oit" <> Some (File data)) ->
  (forall data, cwd st !! "Dockerfile" <> Some (File data)) ->
  update_distgit_dir rt md acc version release st
  = Raise (AssertFileFailed ["Dockerfile"])
          (State (ensure_oit (cwd st)) (records st)
                 (base_comments ++ unmanaged_comments)%list).
Proof.
  intros Hsrc Hoit Hdf. unfold update_distgit_dir. rewrite Hsrc.
  erewrite bind_ok by reflexivity.
  rewrite (make_oit_dir_run (fun _ => _)) by done.
  erewrite bind_ok by reflexivity.
  cbn [cwd records oit_comments set_cwd].
  apply (assert_file_raise (fun _ => _)). intros data. cbn [cwd].
  rewrite lookup_ensure_oit by done. apply Hdf.
Qed.

(** X4.  If [.oit] is a regular file the run raises at [os.mkdir], having
    only reset the comment block.  Otherwise, for an image without upstream
    source: without a regular file [Dockerfile] the run raises at the
    existence check, [.oit] made; with one it returns, and then no entry of
    the checkout but [Dockerfile] and [.oit] has changed and nothing was
    recorded. *)
Theorem X4_reconciliation_in_place rt md acc version release st :
  (forall data, cwd st !! ".oit" = Some (File data) ->
     update_distgit_dir rt md acc version release st
     = Raise (OSError [".oit"]) (State (cwd st) (records st) base_comments))
  /\ (content_source (md_config md) = None ->
      (forall data, cwd st !! ".oit" <> Some (File data)) ->
      ((forall data, cwd st !! "Dockerfile" <> Some (File data)) ->
         update_distgit_dir rt md acc version release st
         = Raise (AssertFileFailed ["Dockerfile"])
                 (State (ensure_oit (cwd st)) (records st)
                        (base_comments ++ unmanaged_comments)%list))
      /\ (forall text, cwd st !! "Dockerfile" = Some (File text) ->
            exists st',
              update_distgit_dir rt md acc version release st = Ok tt st'
              /\ cwd st' !! "Dockerfile"
                 = Some (File (final_text rt md acc version release
                                 (base_comments ++ unmanaged_comments)%list text))
              /\ (forall n, n <> "Dockerfile" -> n <> ".oit" ->
                            cwd st' !! n = cwd st !! n)
              /\ (exists o, cwd st' !! ".oit" = Some (Dir o))
              /\ records st' = records st)).
Proof.
  split; [intros data; apply update_distgit_dir_oit_is_file|].
  intros Hsrc Hoit. split.
  - by apply update_distgit_dir_unmanaged_no_dockerfile.
  - intros text Hdf. eexists. split; [by apply update_distgit_dir_unmanaged|].
    cbn [cwd records]. split; [by rewrite lookup_insert_eq|].
    split; [|split; [|done]].
    + intros n Hn1 Hn2. by rewrite lookup_insert_ne, lookup_ensure_oit.
    + rewrite lookup_insert_ne by done. by apply ensure_oit_dir.
Qed.

Lemma X4_reconciliation_in_place_witness :
  update_distgit_dir example_runtime plain_metadata toy_accessor "1.2" "3"
    (State (<[".oit" := File "not a directory"]> plain_checkout) [] [])
  = Raise (OSError [".oit"])
          (State (<[".oit" := File "not a directory"]> plain_checkout) [] base_comments)
  /\ update_distgit_dir example_runtime plain_metadata toy_accessor "1.2" "3"
       (State example_checkout [] [])
     = Raise (AssertFileFailed ["Dockerfile"])
             (State example_checkout [] (base_comments ++ unmanaged_comments)%list)
  /\ exists st',
       update_distgit_dir example_runtime plain_metadata toy_accessor "1.2" "3"
         (State (<["Dockerfile" := File "FROM base"]> example_checkout) [] []) = Ok tt st'
       /\ cwd st' !! "old.txt" = Some (File "stale").
Proof.
  split; [|split].
  - destruct (X4_reconciliation_in_place example_runtime plain_metadata toy_accessor
                "1.2" "3"
                (State (<[".oit" := File "not a directory"]> plain_checkout) [] []))
      as (Hfile & _).
    apply (Hfile "not a directory"). vm_compute. reflexivity.
  - destruct (X4_reconciliation_in_place example_runtime plain_metadata toy_accessor
                "1.2" "3" (State example_checkout [] [])) as (_ & Hplain).
    destruct Hplain as (Hmissing & _).
    + reflexivity.
    + intros data. vm_compute. discriminate.
    + rewrite Hmissing; [vm_compute; reflexivity|].
      intros data. vm_compute. discriminate.
  - destruct (X4_reconciliation_in_place example_runtime plain_metadata toy_accessor
                "1.2" "3"
                (State (<["Dockerfile" := File "FROM base"]> example_checkout) [] []))
      as (_ & Hplain).
    destruct Hplain as (_ & Hpresent).
    + reflexivity.
    + intros data. vm_compute. discriminate.
    + destruct (Hpresent "FROM base") as (st' & Hrun & _ & Hframe & _).
      { vm_compute. reflexivity. }
      exists st'. split; [exact Hrun|]. rewrite Hframe by done.
      vm_compute. reflexivity.
Defined.

(** ** What a merge leaves in the checkout *)

Lemma _merge_source_entries rt md sc p src text st :
  content_source (md_config md) = Some sc ->
  (dockerfile sc = None \/ dockerfile sc = Some "Dockerfile") ->
  resolved_source rt sc = Some p ->
  host_dirs rt p = Some src ->
  src !! "Dockerfile" = Some (File text) ->
  (forall n s, is_variant n = true -> src !! n = Some s -> exists data, s = File data) ->
  exists d',
    _merge_source rt md st
    = Ok tt (State d'
               (records st ++ notification md (drift text (merge_dir src (cwd st))))%list
               (oit_comments st ++ merge_comments)%list)
    /\ forall n, n <> ".oit" -> d' !! n = merged_entry src (cwd st) n.
Proof.
  intros Hsc Hname Hp Hsrc Hdf Hvar. unfold _merge_source.
  destruct (pre_clean_run st) as (dp & Hclean & Hdp).
  rewrite (bind_ok _ _ _ _ _ Hclean).
  erewrite bind_ok by (eapply source_path_run; eauto).
  erewrite bind_ok by (unfold recursive_overwrite; rewrite Hsrc; reflexivity).
  cbn [cwd set_cwd]. set (dm := merge_dir src dp).
  assert (Hrename : forall s, rename_dockerfile md s = Ok tt s).
  { intros s. unfold rename_dockerfile. rewrite Hsc. cbn [mbind option_bind].
    by destruct Hname as [-> | ->]. }
  rewrite (bind_ok _ _ _ _ _ (Hrename _)).
  destruct (remove_dockerfile_variants_run (set_cwd dm (set_cwd dp st)))
    as (dv & Hvariants & Hdv).
  { intros n nd Hv. cbn [cwd set_cwd]. unfold dm.
    rewrite lookup_merge_dir, Hdp, (variant_not_protected n Hv).
    destruct (src !! n) as [s|] eqn:Hs; [|done].
    destruct (Hvar n s Hv Hs) as [data ->]. intros [= <-]. by exists data. }
  rewrite (bind_ok _ _ _ _ _ Hvariants). cbn [cwd set_cwd] in *.
  assert (Hentries : forall n, dv !! n = merged_entry src (cwd st) n).
  { intros n. rewrite Hdv. unfold merged_entry, dm.
    destruct (is_variant n); [done|]. by rewrite lookup_merge_dir, Hdp. }
  assert (Hdvdf : dv !! "Dockerfile" = Some (File text)).
  { rewrite Hentries. unfold merged_entry.
    change (is_variant "Dockerfile") with false. cbn match. by rewrite Hdf. }
  erewrite bind_ok by (apply detect_drift_run'; cbn [cwd set_cwd]; exact Hdvdf).
  cbn [cwd set_cwd].
  assert (Hoit : dv !! ".oit" = merge_dir src (cwd st) !! ".oit").
  { rewrite Hdv. change (is_variant ".oit") with false. cbn match.
    unfold dm. rewrite !lookup_merge_dir, Hdp. done. }
  assert (Hdrift : drift text dv = drift text (merge_dir src (cwd st)))
    by (unfold drift; by rewrite (snapshot_ext dv (merge_dir src (cwd st)) Hoit)).
  rewrite Hdrift.
  erewrite bind_ok by apply record_notification_run.
  eexists. split; [reflexivity|]. cbn [cwd set_cwd].
  intros n Hn. by rewrite lookup_drifted.
Qed.

Lemma merged_entry_ensure_oit src d n :
  n <> ".oit" -> merged_entry src (ensure_oit d) n = merged_entry src d n.
Proof. intros Hn. unfold merged_entry. by rewrite lookup_ensure_oit. Qed.



(** ** The snapshot over several runs *)

Lemma snapshot_ensure_oit d : snapshot (ensure_oit d) = snapshot d.
Proof.
  unfold snapshot, ensure_oit. destruct (d !! ".oit") as [nd|] eqn:E; [by rewrite E|].
  by rewrite lookup_insert_eq, lookup_empty.
Qed.

Lemma drifted_no_snapshot text d :
  (forall old, snapshot d <> Some (File old)) -> drifted text d = d /\ drift text d = true.
Proof.
  intros Hno. unfold drifted, drift.
  destruct (snapshot d) as [[old|]|]; [by destruct (Hno old)|done..].
Qed.



(** X7.  The detector settles in one pass: run on a checkout that holds
    the build-file and a snapshot file, it leaves a checkout on which it
    answers [False] and changes nothing. *)
Theorem X7_detector_settles st text old :
  cwd st !! "Dockerfile" = Some (File text) ->
  snapshot (cwd st) = Some (File old) ->
  exists notify_owner st1,
    detect_drift st = Ok notify_owner st1
    /\ notify_owner = negb (String.eqb old text)
    /\ snapshot (cwd st1) = Some (File text)
    /\ detect_drift st1 = Ok false st1.
Proof.
  intros Hdf Hsnap. eexists _, _. split; [by apply detect_drift_run'|].
  assert (Hsnap1 : snapshot (drifted text (cwd st)) = Some (File text))
    by by eapply snapshot_drifted.
  split; [unfold drift; by rewrite Hsnap|]. split; [exact Hsnap1|].
  rewrite (detect_drift_run _ text); cbn [cwd set_cwd].
  - by rewrite Hsnap1, String.eqb_refl.
  - by rewrite lookup_drifted.
Qed.

Lemma X7_detector_settles_witness :
  exists st1,
    detect_drift (State (drift_checkout (Some "FROM base:1")) [] []) = Ok true st1
    /\ detect_drift st1 = Ok false st1.
Proof.
  destruct (X7_detector_settles (State (drift_checkout (Some "FROM base:1")) [] [])
              "FROM base:2" "FROM base:1") as (b & st1 & Hrun & -> & _ & Hagain).
  - reflexivity.
  - reflexivity.
  - by exists st1.
Defined.

(** X8.  A snapshot without a build-file to compare it with makes the
    detector raise.  When [Dockerfile] is missing, [filecmp.cmp] raises and
    the checkout is as it was; when [Dockerfile] is a directory the files
    compare unequal, the snapshot is removed, and the copy that should
    replace it raises: the snapshot is lost. *)
Theorem X8_detector_without_build_file st old :
  snapshot (cwd st) = Some (File old) ->
  (cwd st !! "Dockerfile" = None ->
     detect_drift st = Raise (OSError ["Dockerfile"]) st)
  /\ (forall d, cwd st !! "Dockerfile" = Some (Dir d) ->
        exists st',
          detect_drift st = Raise (IOError (CannotOpen ["Dockerfile"])) st'
          /\ snapshot (cwd st') = None
          /\ forall n, n <> ".oit" -> cwd st' !! n = cwd st !! n).
Proof.
  intros Hsnap. split.
  - intros Hdf. unfold detect_drift, bind at 1, isfile. rewrite lookup_snapshot, Hsnap.
    apply bind_raise. unfold filecmp_cmp.
    by rewrite lookup_snapshot, Hsnap, lookup_path_top, Hdf.
  - intros d Hdf. unfold detect_drift, bind at 1, isfile. rewrite lookup_snapshot, Hsnap.
    unfold bind at 1, filecmp_cmp.
    rewrite lookup_snapshot, Hsnap, lookup_path_top, Hdf. cbn [negb].
    destruct (snapshot_Some _ _ Hsnap) as (o & Ho & _).
    unfold bind at 1, os_remove. rewrite lookup_snapshot, Hsnap.
    rewrite (store_snapshot _ _ _ o Ho).
    eexists. split.
    + apply bind_raise. unfold shutil_copy. rewrite lookup_path_top. cbn [cwd set_cwd].
      by rewrite lookup_insert_ne, Hdf.
    + cbn [cwd set_cwd]. split.
      * unfold snapshot. by rewrite lookup_insert_eq, lookup_delete_eq.
      * intros n Hn. by rewrite lookup_insert_ne.
Qed.

Lemma X8_detector_without_build_file_witness :
  detect_drift (State (delete "Dockerfile" (drift_checkout (Some "FROM base:1"))) [] [])
  = Raise (OSError ["Dockerfile"])
          (State (delete "Dockerfile" (drift_checkout (Some "FROM base:1"))) [] []).
Proof.
  destruct (X8_detector_without_build_file
              (State (delete "Dockerfile" (drift_checkout (Some "FROM base:1"))) [] [])
              "FROM base:1") as (Hmissing & _).
  - vm_compute. reflexivity.
  - apply Hmissing. vm_compute. reflexivity.
Defined.

(** ** [source_path] *)

Lemma source_path_cases rt md st :
  source_path rt md st
  = match content_source (md_config md) ≫= alias with
    | None => Raise (IOError NoSourceAlias) st
    | Some a =>
        match source_alias rt !! a with
        | None => Raise (IOError (AliasNotRegistered a)) st
        | Some source_root =>
            let p := match content_source (md_config md) ≫= source_sub_path with
                     | Some sub_path => posix_join source_root sub_path
                     | None => source_root
                     end in
            match host_dirs rt p with
            | Some _ => Ok p st
            | None => Raise (AssertDirFailed p) st
            end
        end
    end.
Proof.
  unfold source_path, assert_dir.
  destruct (content_source (md_config md) ≫= alias) as [a|]; [|done].
  destruct (source_alias rt !! a) as [root|]; [|done].
  cbv zeta. unfold bind.
  by destruct (host_dirs rt _).
Qed.

Lemma resolved_source_cases rt sc :
  resolved_source rt sc
  = match alias sc with
    | None => None
    | Some a =>
        match source_alias rt !! a with
        | None => None
        | Some source_root =>
            Some (match source_sub_path sc with
                  | Some sub_path => posix_join source_root sub_path
                  | None => source_root
                  end)
        end
    end.
Proof.
  unfold resolved_source. destruct (alias sc) as [a|]; [|done].
  cbn [mbind option_bind]. by destruct (source_alias rt !! a).
Qed.



(** ** The alternate build-files *)

Lemma remove_variants_loop_raise ents : forall st n d,
  n ∈ ents -> is_variant n = true -> cwd st !! n = Some (Dir d) ->
  NoDup ents ->
  exists e st',
    for_each ents (fun ent => when (Py.startswith ent "Dockerfile.") (os_remove [ent])) st
    = Raise e st'.
Proof.
  induction ents as [|ent rest IH]; intros st n d Hin Hv Hdir Hnd.
  - by apply not_elem_of_nil in Hin.
  - apply NoDup_cons in Hnd as [Hfresh Hnd]. cbn [for_each].
    apply bind_raises. intros [] st1 Hstep.
    apply elem_of_cons in Hin as [->|Hin].
    + unfold is_variant in Hv. rewrite Hv in Hstep. cbn [when] in Hstep.
      unfold os_remove in Hstep. by rewrite lookup_path_top, Hdir in Hstep.
    + apply (IH st1 n d); try done.
      assert (Hne : n <> ent) by (by intros ->).
      destruct (Py.startswith ent "Dockerfile."); cbn [when] in Hstep.
      * unfold os_remove in Hstep. rewrite lookup_path_top in Hstep.
        destruct (cwd st !! ent) as [[data|d']|]; [|done..].
        rewrite store_top in Hstep. injection Hstep as <-.
        cbn [cwd set_cwd]. by rewrite lookup_delete_ne.
      * by injection Hstep as <-.
Qed.

(** X10.  The removal of the alternate build-files returns exactly when
    every entry named [Dockerfile.*] is a regular file, a directory of such
    a name makes [os.remove] raise; when it returns, these entries are gone
    and every other entry is as it was. *)
Theorem X10_alternate_build_files st :
  ((exists st', remove_dockerfile_variants st = Ok tt st') <->
     (forall n nd, is_variant n = true -> cwd st !! n = Some nd ->
                   exists data, nd = File data))
  /\ (forall st', remove_dockerfile_variants st = Ok tt st' ->
        records st' = records st /\ oit_comments st' = oit_comments st
        /\ forall n, cwd st' !! n = if is_variant n then None else cwd st !! n).
Proof.
  split; [split|].
  - intros [st' Hrun] n nd Hv Hn.
    destruct nd as [data|d]; [by exists data|].
    destruct (remove_variants_loop_raise (map_to_list (cwd st)).*1 st n d)
      as (e & st'' & Hraise); try done.
    + apply elem_of_listing. by exists (Dir d).
    + apply NoDup_fst_map_to_list.
    + unfold remove_dockerfile_variants, bind, listdir in Hrun.
      by rewrite Hraise in Hrun.
  - intros Hfiles. destruct (remove_dockerfile_variants_run st Hfiles) as (d' & Hrun & _).
    by eexists.
  - intros st' Hrun.
    destruct (remove_dockerfile_variants_run st) as (d' & Hrun' & Hd').
    + intros n nd Hv Hn. destruct nd as [data|d]; [by exists data|].
      destruct (remove_variants_loop_raise (map_to_list (cwd st)).*1 st n d)
        as (e & st'' & Hraise); try done.
      * apply elem_of_listing. by exists (Dir d).
      * apply NoDup_fst_map_to_list.
      * unfold remove_dockerfile_variants, bind, listdir in Hrun.
        by rewrite Hraise in Hrun.
    + rewrite Hrun' in Hrun. injection Hrun as <-. done.
Qed.

Lemma X10_alternate_build_files_witness :
  (exists st', remove_dockerfile_variants (State upstream [] []) = Ok tt st')
  /\ forall st',
       remove_dockerfile_variants (State upstream [] []) = Ok tt st' ->
       cwd st' !! "Dockerfile.rhel7" = None.
Proof.
  destruct (X10_alternate_build_files (State upstream [] [])) as (Hiff & Hres).
  split.
  - apply Hiff. intros n nd _ Hn. cbn [cwd] in Hn. unfold upstream in Hn.
    repeat (apply lookup_insert_Some in Hn as [[_ <-]|[_ Hn]]; [by eexists|]).
    by rewrite lookup_empty in Hn.
  - intros st' Hrun. destruct (Hres st' Hrun) as (_ & _ & Hentries).
    by rewrite Hentries.
Defined.

(** ** When a rule runs and when it has an effect *)

(** X11.  The interpreter never skips a rule: if the pass over a list of
    rules returns a text, every rule of the list is a [replace] with both
    fields, the first rule changed the text it was given and the rest of
    the list turned its output into the result; an empty list returns the
    text as it is. *)
Theorem X11_no_rule_is_skipped ms text text' :
  apply_modifications ms text = inr text' ->
  Forall well_formed_rule ms
  /\ (ms = [] -> text' = text)
  /\ (forall m rest, ms = m :: rest ->
        exists old new,
          match_ m = Some old /\ replacement m = Some new
          /\ Py.replace text old new <> text
          /\ apply_modifications rest (Py.replace text old new) = inr text').
Proof.
  intros Hrun. split; [|split].
  - revert text Hrun. induction ms as [|m ms IH]; intros text Hrun; [constructor|].
    cbn [apply_modifications] in Hrun.
    destruct (apply_modification m text) as [e|text1] eqn:Hm; [done|].
    constructor; [|by eapply IH]. unfold apply_modification in Hm.
    case_bool_decide as Hact; [|done].
    destruct (match_ m) as [old|] eqn:Hmt; [|done].
    destruct (replacement m) as [new|] eqn:Hrp; [|done].
    unfold well_formed_rule. rewrite Hmt, Hrp. by repeat split.
  - intros ->. by injection Hrun.
  - intros m rest ->. cbn [apply_modifications] in Hrun.
    destruct (apply_modification m text) as [e|text1] eqn:Hm; [done|].
    unfold apply_modification in Hm. case_bool_decide as Hact; [|done].
    destruct (match_ m) as [old|]; [|done].
    destruct (replacement m) as [new|]; [|done]. cbv zeta in Hm.
    destruct (String.eqb (Py.replace text old new) text) eqn:E; [done|].
    injection Hm as <-. exists old, new. repeat split; [|done].
    intros Heq. rewrite Heq, String.eqb_refl in E. done.
Qed.

Lemma X11_no_rule_is_skipped_witness :
  Forall well_formed_rule [Modification (Some "replace") (Some "centos") (Some "rhel")].
Proof.
  apply (X11_no_rule_is_skipped
           [Modification (Some "replace") (Some "centos") (Some "rhel")]
           "FROM centos:7" "FROM rhel:7").
  reflexivity.
Defined.

Lemma prefix_length old s :
  String.prefix old s = true -> String.length old <= String.length s.
Proof.
  revert s. induction old as [|a old IH]; intros s Hpre; [simpl; lia|].
  apply prefix_cons_inv in Hpre as (s' & -> & Hpre). simpl. apply IH in Hpre. lia.
Qed.

Lemma prefix_split old s :
  String.prefix old s = true -> exists t, s = old +:+ t.
Proof.
  revert s. induction old as [|a old IH]; intros s Hpre; [by exists s|].
  apply prefix_cons_inv in Hpre as (s' & -> & Hpre).
  destruct (IH s' Hpre) as [t ->]. by exists t.
Qed.

Lemma replace_scan_shrinks old new :
  String.length new <= String.length old ->
  forall s k,
    String.length (Py.replace_scan k old new s) + Nat.min k (String.length s)
    <= String.length s.
Proof.
  intros Hlen s. induction s as [|c s IH]; intros k; [simpl; lia|].
  cbn [Py.replace_scan]. destruct k as [|k].
  - destruct (String.prefix old (String c s)) eqn:Hpre.
    + apply prefix_length in Hpre. rewrite length_append.
      specialize (IH (String.length old - 1)). simpl in *. lia.
    + specialize (IH 0). simpl in *. lia.
  - specialize (IH k). simpl in *. lia.
Qed.

Lemma replace_scan_grows old new :
  old <> "" -> String.length old <= String.length new ->
  forall s k,
    String.length s
    <= String.length (Py.replace_scan k old new s) + Nat.min k (String.length s).
Proof.
  intros Hold Hlen s. induction s as [|c s IH]; intros k; [simpl; lia|].
  assert (0 < String.length old) by (destruct old; [done|simpl; lia]).
  cbn [Py.replace_scan]. destruct k as [|k].
  - destruct (String.prefix old (String c s)) eqn:Hpre.
    + apply prefix_length in Hpre. rewrite length_append.
      specialize (IH (String.length old - 1)). simpl in *. lia.
    + specialize (IH 0). simpl in *. lia.
  - specialize (IH k). simpl in *. lia.
Qed.

Lemma append_eq_length a b c d :
  a +:+ b = c +:+ d -> String.length a = String.length c -> a = c.
Proof.
  revert c. induction a as [|x a IH]; intros [|y c] Heq Hlen; try done.
  rewrite !append_cons in Heq. injection Heq as -> Heq. simpl in Hlen.
  f_equal. apply IH; [done|lia].
Qed.

(** A replacement that leaves a text in which [old] occurs as it is
    replaces [old] by itself. *)
Lemma replace_unchanged old new s :
  old <> "" -> Py.occurs old s = true -> Py.replace s old new = s -> new = old.
Proof.
  intros Hold. induction s as [|c s IH]; intros Hocc Heq; [done|].
  cbn [Py.occurs] in Hocc.
  destruct (String.prefix old (String c s)) eqn:Hpre.
  - destruct (prefix_split _ _ Hpre) as [t Ht]. rewrite Ht in Heq.
    rewrite replace_at_occurrence in Heq by done.
    pose proof (f_equal String.length Heq) as Hlen. rewrite !length_append in Hlen.
    assert (Hrep : Py.replace t old new = Py.replace_scan 0 old new t)
      by (by destruct old).
    destruct (Nat.lt_trichotomy (String.length new) (String.length old))
      as [Hlt|[Hsame|Hgt]].
    + pose proof (replace_scan_shrinks old new ltac:(lia) t 0). rewrite <- Hrep in *.
      simpl in *. lia.
    + by eapply append_eq_length.
    + pose proof (replace_scan_grows old new Hold ltac:(lia) t 0). rewrite <- Hrep in *.
      simpl in *. lia.
  - cbn [orb] in Hocc. rewrite replace_past_other in Heq by done.
    injection Heq as Heq. by apply IH.
Qed.

Lemma replace_same_bounded old n : forall s,
  old <> "" -> String.length s <= n -> Py.replace s old old = s.
Proof.
  induction n as [|n IH]; intros s Hold Hlen.
  - destruct s; [by apply replace_nil|simpl in Hlen; lia].
  - destruct s as [|c s]; [by apply replace_nil|].
    destruct (String.prefix old (String c s)) eqn:Hpre.
    + destruct (prefix_split _ _ Hpre) as [t Ht]. rewrite Ht.
      rewrite replace_at_occurrence by done. f_equal. apply IH; [done|].
      apply (f_equal String.length) in Ht. rewrite length_append in Ht.
      destruct old; [done|]. simpl in *. lia.
    + rewrite replace_past_other by done. f_equal. apply IH; [done|].
      simpl in Hlen. lia.
Qed.

Lemma replace_empty_length new s :
  String.length (Py.replace_empty new s)
  = String.length s + (String.length s + 1) * String.length new.
Proof.
  induction s as [|c s IH]; [simpl; lia|].
  cbn [Py.replace_empty]. rewrite length_append. simpl. rewrite IH. lia.
Qed.

(** X12.  A [replace] rule raises the error of a rule without effect in
    exactly two cases: the replacement is the match itself, or the match is
    not empty and does not occur in the text. *)
Theorem X12_rule_without_effect old new text :
  apply_modification (Modification (Some "replace") (Some old) (Some new)) text
  = inl (IOError (ReplaceNoChange old new))
  <-> new = old \/ (old <> "" /\ Py.occurs old text = false).
Proof.
  rewrite apply_modification_replace.
  destruct (String.eqb (Py.replace text old new) text) eqn:E.
  - apply String.eqb_eq in E. split; [intros _|done].
    destruct old as [|a old].
    + left. unfold Py.replace in E.
      pose proof (replace_empty_length new text) as Hlen. rewrite E in Hlen.
      destruct new; [done|]. simpl in Hlen. lia.
    + destruct (Py.occurs (String a old) text) eqn:Hocc; [|by right].
      left. by eapply replace_unchanged.
  - split; [done|]. intros Hcase. exfalso.
    assert (Heq : Py.replace text old new = text).
    { destruct Hcase as [->|[Hold Hocc]]; [|by apply replace_absent].
      destruct old as [|a old].
      - unfold Py.replace. clear E. induction text as [|c text IH]; [done|].
        cbn [Py.replace_empty]. by rewrite IH.
      - by eapply replace_same_bounded. }
    rewrite Heq, String.eqb_refl in E. done.
Qed.

(** ** Lines, split and joined *)

Lemma splitlines_join_lines_sub (P : string -> Prop) lines :
  Forall (fun l => no_break l = true) lines ->
  Forall P lines -> Forall P (Py.splitlines (Py.join_lines lines)).
Proof.
  induction 1 as [|l ls Hl Hls IH]; intros HP; [constructor|].
  inversion HP as [|? ? HPl HPls]; subst. destruct ls as [|l' ls].
  - change (Py.join_lines [l]) with l. rewrite splitlines_single by done.
    destruct l; by constructor.
  - rewrite join_lines_cons, splitlines_line by done. constructor; [done|by apply IH].
Qed.

Lemma splitlines_join_lines lines :
  Forall (fun l => no_break l = true) lines ->
  last lines <> Some "" ->
  Py.splitlines (Py.join_lines lines) = lines.
Proof.
  induction 1 as [|l ls Hl Hls IH]; intros Hlast; [done|].
  destruct ls as [|l' ls].
  - change (Py.join_lines [l]) with l. rewrite splitlines_single by done.
    destruct l; [by destruct Hlast|done].
  - rewrite join_lines_cons, splitlines_line by done. f_equal. by apply IH.
Qed.

Lemma filter_filter_same {A} (f : A -> bool) l :
  List.filter f (List.filter f l) = List.filter f l.
Proof.
  induction l as [|x l IH]; [done|]. simpl.
  destruct (f x) eqn:E; [|done]. simpl. by rewrite E, IH.
Qed.

Lemma strip_oit_comments_lines content :
  Forall (fun line => is_oit_comment line = false)
         (Py.splitlines (strip_oit_comments content)).
Proof.
  unfold strip_oit_comments. apply splitlines_join_lines_sub.
  - apply Forall_filter_bool, splitlines_no_break.
  - apply Forall_forall. intros l Hl.
    apply list_elem_of_In, List.filter_In in Hl as [_ Hl].
    by apply negb_true_iff in Hl.
Qed.

(** X13.  Lines joined by "\n" split back into the same lines, unless the
    last of them is empty (an empty last line is not reported); and so the
    removal of the managed comments, applied to its own output, changes
    nothing unless the lines it kept end with an empty one. *)
Theorem X13_strip_settles :
  (forall lines,
     Forall (fun l => no_break l = true) lines -> last lines <> Some "" ->
     Py.splitlines (Py.join_lines lines) = lines)
  /\ (forall content,
        last (List.filter (fun line => negb (is_oit_comment line)) (Py.splitlines content))
        <> Some "" ->
        strip_oit_comments (strip_oit_comments content) = strip_oit_comments content).
Proof.
  split; [apply splitlines_join_lines|].
  intros content Hlast. unfold strip_oit_comments at 1.
  unfold strip_oit_comments at 1.
  rewrite splitlines_join_lines; [|apply Forall_filter_bool, splitlines_no_break|done].
  by rewrite filter_filter_same.
Qed.

Lemma X13_strip_settles_witness :
  let content := "FROM base" +:+ NL +:+ OIT_COMMENT_PREFIX +:+ "stale" +:+ NL +:+ "RUN true" in
  strip_oit_comments (strip_oit_comments content) = strip_oit_comments content.
Proof.
  apply X13_strip_settles. vm_compute. discriminate.
Defined.

Lemma eqb_append_l p a b : String.eqb (p +:+ a) (p +:+ b) = String.eqb a b.
Proof.
  induction p as [|c p IH]; [done|]. rewrite !append_cons. simpl.
  by rewrite Ascii.eqb_refl.
Qed.

Lemma count_line_app line l1 l2 :
  count_line line (l1 ++ l2)%list = count_line line l1 + count_line line l2.
Proof. unfold count_line. by rewrite List.filter_app, length_app. Qed.

Lemma count_line_none (P : string -> Prop) line lines :
  Forall P lines -> ~ P line -> count_line line lines = 0.
Proof.
  intros Hall Hline. unfold count_line.
  induction Hall as [|l ls Hl _ IH]; [done|]. cbn [List.filter].
  destruct (String.eqb line l) eqn:E; [|done].
  apply String.eqb_eq in E as <-. done.
Qed.

(** X14.  Header lines that carry text do not pile up: a line made of the
    marker and a comment, recognised by the test of line 292, occurs in the
    written build-file exactly as often as the comment occurs in the
    comment block, however often it occurred in the content; and no line
    after the header is recognised as a managed comment. *)
Theorem X14_header_lines_with_text comments content comment :
  Forall (fun c => no_break c = true) comments ->
  is_oit_comment (OIT_COMMENT_PREFIX +:+ comment) = true ->
  count_line (OIT_COMMENT_PREFIX +:+ comment)
             (Py.splitlines (rewrite_header comments content))
  = count_line comment comments
  /\ Py.splitlines (rewrite_header comments content)
     = (map (fun c => OIT_COMMENT_PREFIX +:+ c) comments
        ++ Py.splitlines (strip_oit_comments content))%list
  /\ Forall (fun line => is_oit_comment line = false)
            (Py.splitlines (strip_oit_comments content)).
Proof.
  intros Hc Hline. unfold rewrite_header.
  rewrite splitlines_with_oit_comments by done.
  split; [|split; [done|apply strip_oit_comments_lines]].
  rewrite count_line_app.
  rewrite (count_line_none (fun l => is_oit_comment l = false) _
             (Py.splitlines (strip_oit_comments content)));
    [|apply strip_oit_comments_lines|by rewrite Hline].
  rewrite Nat.add_0_r. unfold count_line. clear Hc.
  induction comments as [|c cs IH]; [done|]. cbn [map List.filter].
  rewrite eqb_append_l.
  destruct (String.eqb comment c); [cbn [Datatypes.length]; f_equal|]; exact IH.
Qed.

Lemma X14_header_lines_with_text_witness :
  let comments := (base_comments ++ merge_comments)%list in
  let line := OIT_COMMENT_PREFIX +:+ "reconciliation process." in
  count_line line
    (Py.splitlines
       (rewrite_header comments
          (rewrite_header comments (line +:+ NL +:+ line +:+ NL +:+ "FROM base"))))
  = 1.
Proof.
  cbv zeta.
  destruct (X14_header_lines_with_text (base_comments ++ merge_comments)%list
              (rewrite_header (base_comments ++ merge_comments)%list
                 ((OIT_COMMENT_PREFIX +:+ "reconciliation process.") +:+ NL
                  +:+ (OIT_COMMENT_PREFIX +:+ "reconciliation process.") +:+ NL
                  +:+ "FROM base"))
              "reconciliation process.") as (Hcount & _).
  - repeat constructor.
  - reflexivity.
  - rewrite Hcount. reflexivity.
Defined.

(** ** Pre-clean, twice *)

(** X15.  Pre-clean leaves a checkout that pre-clean does not change. *)
Theorem X15_pre_clean_settles st st1 :
  pre_clean st = Ok tt st1 -> pre_clean st1 = Ok tt st1.
Proof.
  intros Hrun. destruct (pre_clean_run st) as (d' & Hrun' & Hd').
  rewrite Hrun' in Hrun. injection Hrun as <-.
  destruct (pre_clean_run (set_cwd d' st)) as (d'' & Hrun'' & Hd'').
  rewrite Hrun''. f_equal. rewrite set_cwd_set_cwd. f_equal.
  apply map_eq. intros n. rewrite Hd''. cbn [cwd set_cwd]. rewrite Hd'.
  by destruct (protected n).
Qed.

Lemma X15_pre_clean_settles_witness :
  pre_clean (State (delete "old.txt" example_checkout) [] [])
  = Ok tt (State (delete "old.txt" example_checkout) [] []).
Proof.
  apply (X15_pre_clean_settles (State example_checkout [] [])).
  vm_compute. reflexivity.
Defined.

(** ** The build-file of a reconciliation that returns *)

Lemma assert_file_Ok_inv n st st' :
  assert_file [n] st = Ok tt st' -> st' = st /\ exists data, cwd st !! n = Some (File data).
Proof.
  unfold assert_file, bind, isfile. rewrite lookup_path_top.
  destruct (cwd st !! n) as [[data|d]|]; try done.
  intros [= <-]. split; [done|by exists data].
Qed.

Lemma final_comments_no_break md :
  Forall (fun c => no_break c = true) (final_comments md).
Proof.
  unfold final_comments. apply Forall_app. split; [apply base_comments_no_break|].
  destruct (content_source (md_config md));
    [apply merge_comments_no_break|apply unmanaged_comments_no_break].
Qed.

(** Where a reconciliation that returns stood before the build-file was
    parsed, and what it wrote. *)
Lemma update_distgit_dir_Ok_inv rt md acc version release st st' :
  update_distgit_dir rt md acc version release st = Ok tt st' ->
  exists text,
    cwd st' !! "Dockerfile"
    = Some (File (final_text rt md acc version release (final_comments md) text)).
Proof.
  unfold update_distgit_dir, final_comments. intros H.
  inv_bind H. injection Hm as _ <-.
  inv_bind H. apply (keeps_Ok same_log) in Hm as [_ Hc1]; [|auto with keeps].
  inv_bind H. apply (keeps_Ok same_log) in Hm as [_ Hc2];
    [|apply keeps_when; [apply _|auto with keeps]].
  apply bind_Ok_inv in H as (a3 & st3 & Hm & H).
  assert (Hc3 : oit_comments st3
                = (base_comments
                   ++ match content_source (md_config md) with
                      | Some _ => merge_comments
                      | None => unmanaged_comments
                      end)%list).
  { cbn [oit_comments] in Hc1. destruct (content_source (md_config md)).
    - destruct a3. apply _merge_source_comments in Hm. congruence.
    - injection Hm as _ <-. cbn [oit_comments]. congruence. }
  clear Hm. apply bind_Ok_inv in H as (u & st4 & Hm & H).
  destruct u. apply assert_file_Ok_inv in Hm as (-> & text0 & Hdf).
  apply bind_Ok_inv in H as (u' & st5 & Hm & H).
  assert (Hst5 : oit_comments st5 = oit_comments st3
                 /\ exists text, cwd st5 !! "Dockerfile" = Some (File text)).
  { destruct (content_source (md_config md) ≫= modifications) as [ms|].
    - rewrite (_run_modifications_run ms st3 text0 Hdf) in Hm.
      destruct (apply_modifications ms text0) as [e|text1]; [done|].
      injection Hm as _ <-. split; [done|]. exists text1. cbn [cwd set_cwd].
      apply lookup_insert_eq.
    - injection Hm as _ <-. split; [done|]. by exists text0. }
  destruct Hst5 as (Hc5 & text & Hdf5).
  pose proof (finalize_run rt md acc version release st5 text Hdf5) as Hf.
  cbv zeta in Hf. rewrite Hf in H.
  injection H as <-. exists text. cbn [cwd set_cwd].
  rewrite lookup_insert_eq, Hc5, Hc3. done.
Qed.

(** X16.  Whatever the image and the checkout, a reconciliation that
    returns has written a build-file that begins with the seven lines of
    the comment block, each behind the marker, and in which no later line
    is recognised as a managed comment. *)
Theorem X16_written_build_file rt md acc version release st st' :
  update_distgit_dir rt md acc version release st = Ok tt st' ->
  exists body,
    cwd st' !! "Dockerfile" = Some (File (oit_header (final_comments md) +:+ body))
    /\ Py.splitlines (oit_header (final_comments md) +:+ body)
       = (map (fun c => OIT_COMMENT_PREFIX +:+ c) (final_comments md)
          ++ Py.splitlines body)%list
    /\ List.length (final_comments md) = 7
    /\ Forall (fun line => is_oit_comment line = false) (Py.splitlines body).
Proof.
  intros Hrun. destruct (update_distgit_dir_Ok_inv _ _ _ _ _ _ _ Hrun) as [text Hdf].
  exists (strip_oit_comments (rewritten rt md acc version release text)).
  unfold final_text, rewrite_header in Hdf. rewrite with_oit_comments_header in Hdf.
  split; [exact Hdf|]. split; [|split].
  - rewrite <- with_oit_comments_header.
    apply splitlines_with_oit_comments, final_comments_no_break.
  - unfold final_comments. by destruct (content_source (md_config md)).
  - apply strip_oit_comments_lines.
Qed.

Lemma X16_written_build_file_witness :
  exists st' body,
    update_distgit_dir merged_runtime foo_metadata toy_accessor "1.2" "3"
      (State foo_checkout [] []) = Ok tt st'
    /\ cwd st' !! "Dockerfile"
       = Some (File (oit_header (final_comments foo_metadata) +:+ body)).
Proof.
  eexists. 
  assert (Hrun : update_distgit_dir merged_runtime foo_metadata toy_accessor "1.2" "3"
                   (State foo_checkout [] []) = Ok tt ?[st'])
    by (vm_compute; reflexivity).
  destruct (X16_written_build_file _ _ _ _ _ _ _ Hrun) as (body & Hdf & _).
  exists body. split; [exact Hrun|exact Hdf].
Defined.
